(** * The tool hierarchy of [src/module3/file_f.py]

    A shallow embedding of the four classes [BaseTool], [CustomTool],
    [AdvancedTool] and [PluginTool], and the properties of them that the
    specification states; then further properties of these classes and of
    the class [AssetNamer] of [src/module1/file_b.py].

    Modelling choices.
    - Attributes are typed as the docstrings type them: [name] and [version]
      are [str], [enabled] is [bool], [log_file] is [None] or a [str],
      [timeout] and [execution_count] are (unbounded) [int]s, hence [Z].
    - Lists and dicts are mutable objects with identity.  They live in a
      [heap], and a value that denotes one is a reference [VRef l]; so
      [self.plugins.append(x)] is an update of the heap, the list handed to a
      constructor is shared with the caller, and the [plugins] entry of the
      mapping returned by [PluginTool.run] is the very list of the instance.
    - [print] appends a line to [stdout].
    - An instance is threaded explicitly through its methods, which are
      computations in a state-and-failure monad over the pair of [self] and
      the world.  [None] is reserved for what cannot happen in Python with
      arguments of the documented types (a reference to no object, a list
      operation on something that is not a list).
    - A method call is resolved along the method resolution order of the
      class of the receiver, from the table of the methods each class body
      defines. *)

From Stdlib Require Import ZArith Ascii String List Lia.
From stdpp Require Import base option list strings pretty.

Local Open Scope string_scope.
Local Open Scope list_scope.

(** ** Values, objects and the world *)

Definition loc := nat.

Inductive value :=
| VNone
| VBool (b : bool)
| VInt (n : Z)
| VStr (s : string)
| VRef (l : loc).

(** A dict keeps its keys in insertion order. *)
Definition pydict := list (string * value).

Inductive obj :=
| OList (items : list string)
| ODict (entries : pydict).

Record world := World { heap : list obj; stdout : list string }.

(** [d.get(k)] *)
Fixpoint dict_get (k : string) (d : pydict) : option value :=
  match d with
  | [] => None
  | (k', v) :: d' => if String.eqb k k' then Some v else dict_get k d'
  end.

(** [d[k] = v]: the value of an existing key is replaced where it stands, a
    new key goes to the end. *)
Fixpoint dict_set (k : string) (v : value) (d : pydict) : pydict :=
  match d with
  | [] => [(k, v)]
  | (k', v') :: d' =>
      if String.eqb k k' then (k', v) :: d' else (k', v') :: dict_set k v d'
  end.

Definition dict_keys (d : pydict) : list string := d.*1.

(** [x in l] for a list of strings. *)
Definition list_in (x : string) (l : list string) : bool :=
  existsb (String.eqb x) l.

(** ** The monad of computations *)

Definition M (S A : Type) : Type := S -> option (A * S).

Definition ret {S A} (a : A) : M S A := fun s => Some (a, s).

Definition bind {S A B} (m : M S A) (k : A -> M S B) : M S B :=
  fun s => match m s with
           | Some (a, s') => k a s'
           | None => None
           end.

Definition stuck {S A} : M S A := fun _ => None.

Declare Scope py_scope.
Delimit Scope py_scope with py.
Notation "'let!' x ':=' m 'in' k" := (bind m (fun x => k))
  (at level 10, x binder, m at level 100, k at level 200) : py_scope.
Notation "m '>>' k" := (bind m (fun _ => k))
  (at level 100, k at level 200, right associativity) : py_scope.
Local Open Scope py_scope.

(** *** Operations on the world *)

Definition alloc (o : obj) : M world loc :=
  fun w => Some (length (heap w), World (heap w ++ [o]) (stdout w)).

Definition deref (l : loc) : M world obj :=
  fun w => match heap w !! l with
           | Some o => Some (o, w)
           | None => None
           end.

Definition store (l : loc) (o : obj) : M world unit :=
  fun w => match heap w !! l with
           | Some _ => Some (tt, World (<[l:=o]> (heap w)) (stdout w))
           | None => None
           end.

Definition print (line : string) : M world unit :=
  fun w => Some (tt, World (heap w) (stdout w ++ [line])).

(** Truth value of an object: a container is true when it is not empty. *)
Definition obj_truthy (o : obj) : bool :=
  match o with
  | OList items => negb (Nat.eqb (length items) 0)
  | ODict entries => negb (Nat.eqb (length entries) 0)
  end.

Definition truthy (v : value) : M world bool :=
  match v with
  | VNone => ret false
  | VBool b => ret b
  | VInt n => ret (negb (Z.eqb n 0))
  | VStr s => ret (negb (String.eqb s EmptyString))
  | VRef l => let! o := deref l in ret (obj_truthy o)
  end.

(** [v or <literal>]: the literal is evaluated, that is a new object
    allocated, only when [v] is false. *)
Definition or_new (v : value) (literal : obj) : M world value :=
  let! b := truthy v in
  if b then ret v else let! l := alloc literal in ret (VRef l).

(** The list a value refers to. *)
Definition deref_list (v : value) : M world (list string) :=
  match v with
  | VRef l => let! o := deref l in
              match o with
              | OList items => ret items
              | ODict _ => stuck
              end
  | _ => stuck
  end.

(** [v.append(x)] *)
Definition list_append (v : value) (x : string) : M world unit :=
  match v with
  | VRef l => let! items := deref_list v in store l (OList (items ++ [x]))
  | _ => stuck
  end.

(** [len(v)] *)
Definition py_len (v : value) : M world Z :=
  let! items := deref_list v in ret (Z.of_nat (length items)).

(** *** Methods: computations over [self] and the world *)

Definition method (T A : Type) : Type := M (T * world) A.

Definition get_self {T} : method T T := fun s => Some (s.1, s).

Definition set_self {T} (self : T) : method T unit :=
  fun s => Some (tt, (self, s.2)).

Definition in_world {T A} (m : M world A) : method T A :=
  fun s => match m s.2 with
           | Some (a, w) => Some (a, (s.1, w))
           | None => None
           end.

(** A method of a parent class run on the part of [self] that is an instance
    of the parent: [get] projects that part, [put] writes it back. *)
Definition on_part {T P A} (get : T -> option P) (put : P -> T -> T)
    (m : method P A) : method T A :=
  fun s => match get s.1 with
           | Some p => match m (p, s.2) with
                       | Some (a, (p', w)) => Some (a, (put p' s.1, w))
                       | None => None
                       end
           | None => None
           end.

(** ** The classes *)

Module BaseTool.

Record t := Build { name : string; version : string; enabled : bool }.

Definition __init__ (name : string) (version : option string)
    (enabled : option bool) : M world t :=
  let version := default "1.0" version in
  let enabled := default true enabled in
  ret {| name := name; version := version; enabled := enabled |}.

Definition run : method t string :=
  let! self := get_self in
  in_world (print ("Running base tool: " +:+ name self)) >>
  ret ("Base tool " +:+ name self +:+ " executed.").

Definition get_info : method t pydict :=
  let! self := get_self in
  ret [("name", VStr (name self));
       ("version", VStr (version self));
       ("enabled", VBool (enabled self))].

End BaseTool.

Module CustomTool.

Record t := Build { super_ : BaseTool.t; custom_config : value }.

Definition __init__ (name : string) (version : option string)
    (enabled : option bool) (custom_config : option value) : M world t :=
  let version := default "1.0" version in
  let enabled := default true enabled in
  let custom_config := default VNone custom_config in
  let! base := BaseTool.__init__ name (Some version) (Some enabled) in
  let! config := or_new custom_config (ODict []) in
  ret {| super_ := base; custom_config := config |}.

(** [py_str h v] stands for the text that formatting the value [v] in an
    f-string yields when the heap is [h]; that is the work of the
    interpreter, not of this program. *)
Definition run (py_str : list obj -> value -> string) : method t string :=
  let! self := get_self in
  let name := BaseTool.name (super_ self) in
  in_world (print ("Running custom tool: " +:+ name)) >>
  let! config := in_world (fun w => Some (py_str (heap w) (custom_config self), w)) in
  ret ("Custom tool " +:+ name +:+ " executed with config: " +:+ config).

End CustomTool.

Module AdvancedTool.

Record t := Build {
  super_ : BaseTool.t;
  log_file : option string;
  timeout : Z;
  execution_count : Z
}.

Definition __init__ (name : string) (version : option string)
    (enabled : option bool) (log_file : option string)
    (timeout : option Z) : M world t :=
  let version := default "2.0" version in
  let enabled := default true enabled in
  let timeout := default 30%Z timeout in
  let! base := BaseTool.__init__ name (Some version) (Some enabled) in
  ret {| super_ := base; log_file := log_file; timeout := timeout;
         execution_count := 0%Z |}.

Definition run : method t pydict :=
  let! self := get_self in
  set_self {| super_ := super_ self; log_file := log_file self;
              timeout := timeout self;
              execution_count := (execution_count self + 1)%Z |} >>
  let! self := get_self in
  let name := BaseTool.name (super_ self) in
  in_world (print ("Running advanced tool: " +:+ name)) >>
  ret [("status", VStr "success");
       ("tool_name", VStr name);
       ("execution_count", VInt (execution_count self));
       ("timeout", VInt (timeout self))].

Definition get_stats : method t pydict :=
  let! self := get_self in
  ret [("name", VStr (BaseTool.name (super_ self)));
       ("execution_count", VInt (execution_count self));
       ("timeout", VInt (timeout self))].

End AdvancedTool.

Module PluginTool.

Record t := Build { super_ : AdvancedTool.t; plugins : value }.

Definition __init__ (name : string) (version : option string)
    (enabled : option bool) (log_file : option string)
    (timeout : option Z) (plugins : option value) : M world t :=
  let version := default "3.0" version in
  let enabled := default true enabled in
  let timeout := default 30%Z timeout in
  let plugins := default VNone plugins in
  let! base :=
    AdvancedTool.__init__ name (Some version) (Some enabled) log_file
      (Some timeout) in
  let! plugins := or_new plugins (OList []) in
  ret {| super_ := base; plugins := plugins |}.

Definition add_plugin (plugin_name : string) : method t bool :=
  let! self := get_self in
  let! items := in_world (deref_list (plugins self)) in
  if negb (list_in plugin_name items) then
    in_world (list_append (plugins self) plugin_name) >>
    ret true
  else ret false.

Definition run : method t pydict :=
  let! base_result :=
    on_part (fun self => Some (super_ self))
            (fun base self => {| super_ := base; plugins := plugins self |})
            AdvancedTool.run in
  let! self := get_self in
  let base_result := dict_set "plugins" (plugins self) base_result in
  let! count := in_world (py_len (plugins self)) in
  let base_result := dict_set "plugin_count" (VInt count) base_result in
  ret base_result.

End PluginTool.

(** ** The class table and method calls *)

Inductive cls := cBaseTool | cCustomTool | cAdvancedTool | cPluginTool.

Inductive meth := Mrun | Mget_info | Mget_stats | Madd_plugin.

(** The class named in the header of each [class] statement. *)
Definition base_class (k : cls) : option cls :=
  match k with
  | cBaseTool => None
  | cCustomTool => Some cBaseTool
  | cAdvancedTool => Some cBaseTool
  | cPluginTool => Some cAdvancedTool
  end.

(** The methods that the body of each class defines. *)
Definition defines (k : cls) (m : meth) : bool :=
  match k, m with
  | cBaseTool, (Mrun | Mget_info) => true
  | cCustomTool, Mrun => true
  | cAdvancedTool, (Mrun | Mget_stats) => true
  | cPluginTool, (Madd_plugin | Mrun) => true
  | _, _ => false
  end.

Fixpoint ancestors (depth : nat) (k : cls) : list cls :=
  match depth with
  | O => []
  | S depth' =>
      k :: match base_class k with
           | Some b => ancestors depth' b
           | None => []
           end
  end.

(** Method resolution order: the class, then its chain of base classes (the
    hierarchy has four classes, so no chain is longer than that). *)
Definition mro (k : cls) : list cls := ancestors 4 k.

(** The class whose definition of [m] a call on an instance of [k] runs. *)
Definition resolve (k : cls) (m : meth) : option cls :=
  List.find (fun k' => defines k' m) (mro k).

Inductive tool :=
| Base (b : BaseTool.t)
| Custom (c : CustomTool.t)
| Advanced (a : AdvancedTool.t)
| Plugin (p : PluginTool.t).

Definition class_of (self : tool) : cls :=
  match self with
  | Base _ => cBaseTool
  | Custom _ => cCustomTool
  | Advanced _ => cAdvancedTool
  | Plugin _ => cPluginTool
  end.

(** *** An instance seen as an instance of one of its classes *)

Definition as_advanced (self : tool) : option AdvancedTool.t :=
  match self with
  | Advanced a => Some a
  | Plugin p => Some (PluginTool.super_ p)
  | _ => None
  end.

Definition with_advanced (a : AdvancedTool.t) (self : tool) : tool :=
  match self with
  | Advanced _ => Advanced a
  | Plugin p => Plugin (PluginTool.Build a (PluginTool.plugins p))
  | _ => self
  end.

Definition base_of (self : tool) : BaseTool.t :=
  match self with
  | Base b => b
  | Custom c => CustomTool.super_ c
  | Advanced a => AdvancedTool.super_ a
  | Plugin p => AdvancedTool.super_ (PluginTool.super_ p)
  end.

Definition as_base (self : tool) : option BaseTool.t := Some (base_of self).

Definition with_base (b : BaseTool.t) (self : tool) : tool :=
  match self with
  | Base _ => Base b
  | Custom c => Custom (CustomTool.Build b (CustomTool.custom_config c))
  | Advanced a =>
      Advanced (AdvancedTool.Build b (AdvancedTool.log_file a)
                  (AdvancedTool.timeout a) (AdvancedTool.execution_count a))
  | Plugin p =>
      let a := PluginTool.super_ p in
      Plugin (PluginTool.Build
                (AdvancedTool.Build b (AdvancedTool.log_file a)
                   (AdvancedTool.timeout a) (AdvancedTool.execution_count a))
                (PluginTool.plugins p))
  end.

Definition as_custom (self : tool) : option CustomTool.t :=
  match self with Custom c => Some c | _ => None end.

Definition with_custom (c : CustomTool.t) (self : tool) : tool :=
  match self with Custom _ => Custom c | _ => self end.

Definition as_plugin (self : tool) : option PluginTool.t :=
  match self with Plugin p => Some p | _ => None end.

Definition with_plugin (p : PluginTool.t) (self : tool) : tool :=
  match self with Plugin _ => Plugin p | _ => self end.

(** The attributes of an instance, as [vars(self)] lists them: in the order
    in which the constructors assign them. *)
Definition attrs (self : tool) : pydict :=
  let of_base b :=
    [("name", VStr (BaseTool.name b));
     ("version", VStr (BaseTool.version b));
     ("enabled", VBool (BaseTool.enabled b))] in
  let of_advanced a :=
    (of_base (AdvancedTool.super_ a) ++
     [("log_file", from_option VStr VNone (AdvancedTool.log_file a));
      ("timeout", VInt (AdvancedTool.timeout a));
      ("execution_count", VInt (AdvancedTool.execution_count a))])%list in
  match self with
  | Base b => of_base b
  | Custom c =>
      (of_base (CustomTool.super_ c) ++
       [("custom_config", CustomTool.custom_config c)])%list
  | Advanced a => of_advanced a
  | Plugin p =>
      (of_advanced (PluginTool.super_ p) ++
       [("plugins", PluginTool.plugins p)])%list
  end.

(** *** Calls *)

Inductive call :=
| Run
| GetInfo
| GetStats
| AddPlugin (plugin_name : string).

Definition meth_of (c : call) : meth :=
  match c with
  | Run => Mrun
  | GetInfo => Mget_info
  | GetStats => Mget_stats
  | AddPlugin _ => Madd_plugin
  end.

(** What a call gives back: the returned string, mapping or boolean, or the
    [AttributeError] raised for a method that the class does not have. *)
Inductive result :=
| RStr (s : string)
| RDict (d : pydict)
| RBool (b : bool)
| RAttributeError.

Definition fmap_M {S A B} (f : A -> B) (m : M S A) : M S B :=
  let! a := m in ret (f a).

Section Calls.

(** The interpreter's formatting of a value inside an f-string. *)
Variable py_str : list obj -> value -> string.

(** The definition of the method of call [c] in the body of class [k]. *)
Definition body (k : cls) (c : call) : method tool result :=
  match k, c with
  | cBaseTool, Run =>
      fmap_M RStr (on_part as_base with_base BaseTool.run)
  | cBaseTool, GetInfo =>
      fmap_M RDict (on_part as_base with_base BaseTool.get_info)
  | cCustomTool, Run =>
      fmap_M RStr (on_part as_custom with_custom (CustomTool.run py_str))
  | cAdvancedTool, Run =>
      fmap_M RDict (on_part as_advanced with_advanced AdvancedTool.run)
  | cAdvancedTool, GetStats =>
      fmap_M RDict (on_part as_advanced with_advanced AdvancedTool.get_stats)
  | cPluginTool, AddPlugin plugin_name =>
      fmap_M RBool
        (on_part as_plugin with_plugin (PluginTool.add_plugin plugin_name))
  | cPluginTool, Run =>
      fmap_M RDict (on_part as_plugin with_plugin PluginTool.run)
  | _, _ => stuck
  end.

(** [self.m(...)] *)
Definition invoke (c : call) : method tool result :=
  let! self := get_self in
  match resolve (class_of self) (meth_of c) with
  | Some k => body k c
  | None => ret RAttributeError
  end.

(** A sequence of calls on one instance, with the results in order. *)
Fixpoint invoke_all (cs : list call) : method tool (list result) :=
  match cs with
  | [] => ret []
  | c :: cs' =>
      let! r := invoke c in
      let! rs := invoke_all cs' in
      ret (r :: rs)
  end.

End Calls.

(** The number of calls of [run] in a sequence of calls. *)
Fixpoint count_runs (cs : list call) : Z :=
  match cs with
  | [] => 0
  | Run :: cs' => 1 + count_runs cs'
  | _ :: cs' => count_runs cs'
  end.

(** ** Observations used in the statements *)

(** A value is valid in a world when, if it is a reference, it refers to an
    object of the heap.  Every value a Python program holds is valid. *)
Definition valid (w : world) (v : value) : Prop :=
  match v with
  | VRef l => is_Some (heap w !! l)
  | _ => True
  end.

(** The truth value of [v], when [v] is valid. *)
Definition is_true (w : world) (v : value) : option bool :=
  fst <$> truthy v w.

(** The list that [self.plugins] refers to at the moment. *)
Definition plugin_list (p : PluginTool.t) (w : world) : option (list string) :=
  fst <$> deref_list (PluginTool.plugins p) w.

(** The instance is well formed: its [plugins] attribute, if it has one, is a
    list. *)
Definition wf (self : tool) (w : world) : Prop :=
  match self with
  | Plugin p => is_Some (plugin_list p w)
  | _ => True
  end.

Definition execution_count_of (self : tool) : option Z :=
  AdvancedTool.execution_count <$> as_advanced self.

(** [self.enabled = e] *)
Definition set_enabled (e : bool) (self : tool) : tool :=
  let b := base_of self in
  with_base (BaseTool.Build (BaseTool.name b) (BaseTool.version b) e) self.

(** [self.execution_count = n], on the classes that have the attribute. *)
Definition set_execution_count (n : Z) (self : tool) : tool :=
  match as_advanced self with
  | Some a =>
      with_advanced
        (AdvancedTool.Build (AdvancedTool.super_ a) (AdvancedTool.log_file a)
           (AdvancedTool.timeout a) n) self
  | None => self
  end.

(** [needle in hay] for strings. *)
Definition occurs_in (needle hay : string) : Prop :=
  exists before after, hay = before +:+ needle +:+ after.

(** The names that a sequence of calls added: the arguments of the calls of
    [add_plugin] that returned [True], in the order of the calls. *)
Fixpoint accepted (cs : list call) (rs : list result) : list string :=
  match cs, rs with
  | AddPlugin x :: cs', RBool true :: rs' => x :: accepted cs' rs'
  | _ :: cs', _ :: rs' => accepted cs' rs'
  | _, _ => []
  end.

(** The [plugins] argument of the constructor of [PluginTool] is of its
    documented type: it is left out, or false ([None], an empty list), or a
    list. *)
Definition list_arg (w : world) (plugins : option value) : Prop :=
  is_true w (default VNone plugins) = Some false \/
  is_Some (fst <$> deref_list (default VNone plugins) w).

(** The same, and the list has no name twice. *)
Definition duplicate_free_arg (w : world) (plugins : option value) : Prop :=
  is_true w (default VNone plugins) = Some false \/
  exists items,
    fst <$> deref_list (default VNone plugins) w = Some items /\ NoDup items.

(** *** A formatting function for the examples

    [str_of h v] is the text of [str(v)] in CPython, for strings without
    quotes, backslashes or control characters and for containers that do not
    contain themselves (on such a heap no chain of references is longer than
    the heap).  The statements about [CustomTool.run] hold for any formatting
    function; this one only instantiates them. *)
Definition quoted (s : string) : string := "'" +:+ s +:+ "'".

Fixpoint repr (depth : nat) (h : list obj) (v : value) : string :=
  match v with
  | VNone => "None"
  | VBool true => "True"
  | VBool false => "False"
  | VInt n => pretty n
  | VStr s => quoted s
  | VRef l =>
      match depth with
      | O => "..."
      | S depth' =>
          match h !! l with
          | Some (OList items) =>
              "[" +:+ String.concat ", " (map quoted items) +:+ "]"
          | Some (ODict entries) =>
              "{" +:+
              String.concat ", "
                (map (fun e => quoted e.1 +:+ ": " +:+ repr depth' h e.2)
                   entries)
              +:+ "}"
          | None => "..."
          end
      end
  end.

Definition str_of (h : list obj) (v : value) : string :=
  match v with
  | VStr s => s
  | _ => repr (length h) h v
  end.

(** The outcome of a call, with [enabled] set to [e] in the instance it
    leaves. *)
Definition enabled_after (e : bool) (o : option (result * (tool * world))) :
    option (result * (tool * world)) :=
  match o with
  | Some (r, (self, w)) => Some (r, (set_enabled e self, w))
  | None => None
  end.

(** *** Instances and worlds for the examples *)

Definition empty_world : world := World [] [].

(** A world in which the list ["auth"] is object 0, and a PluginTool whose
    [plugins] is that list. *)
Definition auth_world : world := World [OList ["auth"]] [].

Definition svc : PluginTool.t :=
  PluginTool.Build
    (AdvancedTool.Build (BaseTool.Build "svc" "3.0" true) None 30 4)
    (VRef 0).

Definition job : AdvancedTool.t :=
  AdvancedTool.Build (BaseTool.Build "job" "2.0" true) (Some "job.log") 10 0.

(** A world in which the mapping with the entry "mode": "fast" is
    object 0, and a CustomTool configured with it. *)
Definition mode_world : world := World [ODict [("mode", VStr "fast")]] [].

Definition fmt : CustomTool.t :=
  CustomTool.Build (BaseTool.Build "fmt" "1.0" true) (VRef 0).

(** ** The asset namer of [src/module1/file_b.py] *)

Module AssetNamer.

Record t := Build { prefix : string }.

Definition __init__ (prefix : string) : M world t :=
  ret {| prefix := prefix |}.

Definition generate_name (base_name : string) : method t string :=
  let! self := get_self in
  ret (prefix self +:+ "_" +:+ base_name).

End AssetNamer.

(** ** Further observations *)

(** [c in s] for a character and a string. *)
Fixpoint has_char (c : ascii) (s : string) : bool :=
  match s with
  | EmptyString => false
  | String a s' => if Ascii.eqb c a then true else has_char c s'
  end.

(** The line that [run] prints on an instance: the classes below
    AdvancedTool have no notice of their own. *)
Definition run_notice (self : tool) : string :=
  match self with
  | Base b => "Running base tool: " +:+ BaseTool.name b
  | Custom c =>
      "Running custom tool: " +:+ BaseTool.name (CustomTool.super_ c)
  | Advanced _ | Plugin _ =>
      "Running advanced tool: " +:+ BaseTool.name (base_of self)
  end.

(** The instance with [execution_count] raised by [k], on the classes that
    have the attribute. *)
Definition after_runs (k : Z) (self : tool) : tool :=
  match execution_count_of self with
  | Some n => set_execution_count (n + k) self
  | None => self
  end.

(** The object that the [plugins] attribute refers to. *)
Definition plugins_loc (self : tool) : option loc :=
  match self with
  | Plugin p =>
      match PluginTool.plugins p with
      | VRef l => Some l
      | _ => None
      end
  | _ => None
  end.

(** The entry for [key] of a returned mapping. *)
Definition result_entry (key : string) (r : result) : option value :=
  match r with
  | RDict d => dict_get key d
  | _ => None
  end.

(** ** Basic facts *)

Lemma append_nil_r (s : string) : s +:+ EmptyString = s.
Proof.
  induction s as [|a s IH]; [done|].
  change (String a (s +:+ EmptyString) = String a s). by rewrite IH.
Qed.

Lemma append_assoc (s1 s2 s3 : string) :
  (s1 +:+ s2) +:+ s3 = s1 +:+ s2 +:+ s3.
Proof.
  induction s1 as [|a s1 IH]; [done|].
  change (String a ((s1 +:+ s2) +:+ s3) = String a (s1 +:+ s2 +:+ s3)).
  by rewrite IH.
Qed.

Lemma list_in_spec x l : list_in x l = true <-> x ∈ l.
Proof.
  unfold list_in. rewrite existsb_exists. split.
  - intros (y & Hy & Heq). apply String.eqb_eq in Heq. subst y.
    by apply list_elem_of_In.
  - intros Hin. exists x. split; [by apply list_elem_of_In|].
    apply String.eqb_refl.
Qed.

Lemma list_in_false x l : list_in x l = false <-> x ∉ l.
Proof.
  rewrite <- list_in_spec. destruct (list_in x l); split; congruence.
Qed.

Lemma deref_list_inv v w items :
  fst <$> deref_list v w = Some items ->
  exists l, v = VRef l /\ heap w !! l = Some (OList items) /\
            deref_list v w = Some (items, w).
Proof.
  destruct v as [| | | |l]; try discriminate. cbn.
  unfold bind, deref. destruct (heap w !! l) as [[xs|d]|] eqn:E; try discriminate.
  cbn. intros [= <-]. by exists l.
Qed.

Lemma plugin_list_inv p w items :
  plugin_list p w = Some items ->
  exists l, PluginTool.plugins p = VRef l /\
            heap w !! l = Some (OList items) /\
            deref_list (PluginTool.plugins p) w = Some (items, w).
Proof. apply deref_list_inv. Qed.

Lemma truthy_valid v w : valid w v -> exists b, truthy v w = Some (b, w).
Proof.
  destruct v as [| | | |l]; cbn; eauto.
  intros [o Ho]. unfold bind, deref. rewrite Ho. eauto.
Qed.

(** [v or <literal>] is [v] itself when [v] is true, and refers to a new
    object, the next one of the heap, when it is false. *)
Lemma or_new_true v o w :
  is_true w v = Some true -> or_new v o w = Some (v, w).
Proof.
  unfold is_true, or_new, bind.
  destruct v as [| | | |l]; cbn; try discriminate.
  - intros [= ->]. reflexivity.
  - intros [= H]. by rewrite H.
  - intros [= H]. by rewrite H.
  - unfold deref, bind. destruct (heap w !! l); cbn; [|discriminate].
    intros [= H]. by rewrite H.
Qed.

Lemma or_new_false v o w :
  is_true w v = Some false ->
  or_new v o w =
    Some (VRef (length (heap w)), World (heap w ++ [o]) (stdout w)).
Proof.
  unfold is_true, or_new, bind.
  destruct v as [| | | |l]; cbn; try discriminate; try reflexivity.
  - intros [= ->]. reflexivity.
  - intros [= H]. by rewrite H.
  - intros [= H]. by rewrite H.
  - unfold deref, bind. destruct (heap w !! l); cbn; [|discriminate].
    intros [= H]. by rewrite H.
Qed.

Lemma or_new_valid v o w :
  valid w v -> exists v' w', or_new v o w = Some (v', w').
Proof.
  intros Hv. destruct (truthy_valid v w Hv) as [b Hb].
  destruct b.
  - exists v, w. apply or_new_true. unfold is_true. by rewrite Hb.
  - eexists _, _. apply or_new_false. unfold is_true. by rewrite Hb.
Qed.

(** ** What each call does *)

Section Properties.

Variable py_str : list obj -> value -> string.

Lemma invoke_get_info self w :
  invoke py_str GetInfo (self, w) =
    Some (RDict [("name", VStr (BaseTool.name (base_of self)));
                 ("version", VStr (BaseTool.version (base_of self)));
                 ("enabled", VBool (BaseTool.enabled (base_of self)))],
          (self, w)).
Proof. by destruct self as [b|[b v]|[b f t n]|[[b f t n] v]]. Qed.

Lemma get_info_not_overridden k : resolve k Mget_info = Some cBaseTool.
Proof. by destruct k. Qed.

Lemma invoke_get_stats_advanced a w :
  invoke py_str GetStats (Advanced a, w) =
    Some (RDict [("name", VStr (BaseTool.name (AdvancedTool.super_ a)));
                 ("execution_count", VInt (AdvancedTool.execution_count a));
                 ("timeout", VInt (AdvancedTool.timeout a))],
          (Advanced a, w)).
Proof. by destruct a. Qed.

Lemma invoke_get_stats_plugin p w :
  let a := PluginTool.super_ p in
  invoke py_str GetStats (Plugin p, w) =
    Some (RDict [("name", VStr (BaseTool.name (AdvancedTool.super_ a)));
                 ("execution_count", VInt (AdvancedTool.execution_count a));
                 ("timeout", VInt (AdvancedTool.timeout a))],
          (Plugin p, w)).
Proof. by destruct p as [[b f t n] v]. Qed.

Lemma invoke_run_base b w :
  invoke py_str Run (Base b, w) =
    Some (RStr ("Base tool " +:+ BaseTool.name b +:+ " executed."),
          (Base b,
           World (heap w)
             (stdout w ++ ["Running base tool: " +:+ BaseTool.name b]))).
Proof. reflexivity. Qed.

Lemma invoke_run_custom c w :
  let name := BaseTool.name (CustomTool.super_ c) in
  invoke py_str Run (Custom c, w) =
    Some (RStr ("Custom tool " +:+ name +:+ " executed with config: " +:+
                py_str (heap w) (CustomTool.custom_config c)),
          (Custom c,
           World (heap w) (stdout w ++ ["Running custom tool: " +:+ name]))).
Proof. by destruct c. Qed.

Lemma invoke_run_advanced a w :
  let name := BaseTool.name (AdvancedTool.super_ a) in
  let n := (AdvancedTool.execution_count a + 1)%Z in
  invoke py_str Run (Advanced a, w) =
    Some (RDict [("status", VStr "success");
                 ("tool_name", VStr name);
                 ("execution_count", VInt n);
                 ("timeout", VInt (AdvancedTool.timeout a))],
          (set_execution_count n (Advanced a),
           World (heap w) (stdout w ++ ["Running advanced tool: " +:+ name]))).
Proof. by destruct a. Qed.

Lemma invoke_run_plugin p w items :
  plugin_list p w = Some items ->
  let a := PluginTool.super_ p in
  let name := BaseTool.name (AdvancedTool.super_ a) in
  let n := (AdvancedTool.execution_count a + 1)%Z in
  invoke py_str Run (Plugin p, w) =
    Some (RDict [("status", VStr "success");
                 ("tool_name", VStr name);
                 ("execution_count", VInt n);
                 ("timeout", VInt (AdvancedTool.timeout a));
                 ("plugins", PluginTool.plugins p);
                 ("plugin_count", VInt (Z.of_nat (length items)))],
          (set_execution_count n (Plugin p),
           World (heap w) (stdout w ++ ["Running advanced tool: " +:+ name]))).
Proof.
  intros (l & Hl & Hh & _)%plugin_list_inv.
  destruct p as [[b f t n] v]. cbn in Hl. subst v. cbn.
  unfold invoke, bind. cbn.
  unfold fmap_M, on_part, bind. cbn.
  unfold PluginTool.run, bind, on_part. cbn.
  unfold in_world, py_len, bind. cbn. unfold deref, bind. cbn.
  rewrite Hh. reflexivity.
Qed.

Lemma invoke_add_plugin_new p w items x :
  plugin_list p w = Some items ->
  x ∉ items ->
  exists l,
    PluginTool.plugins p = VRef l /\
    invoke py_str (AddPlugin x) (Plugin p, w) =
      Some (RBool true,
            (Plugin p, World (<[l := OList (items ++ [x])]> (heap w)) (stdout w))).
Proof.
  intros (l & Hl & Hh & _)%plugin_list_inv Hx%list_in_false. exists l.
  split; [done|].
  destruct p as [a v]. cbn in Hl. subst v.
  unfold invoke, bind. cbn.
  unfold fmap_M, on_part, bind. cbn.
  unfold PluginTool.add_plugin, bind, in_world. cbn.
  unfold deref, bind. cbn. rewrite Hh. cbn. rewrite Hx. cbn.
  unfold deref, store, bind. cbn. rewrite Hh. cbn. by rewrite Hh.
Qed.

Lemma invoke_add_plugin_dup p w items x :
  plugin_list p w = Some items ->
  x ∈ items ->
  invoke py_str (AddPlugin x) (Plugin p, w) = Some (RBool false, (Plugin p, w)).
Proof.
  intros (l & Hl & Hh & _)%plugin_list_inv Hx%list_in_spec.
  destruct p as [a v]. cbn in Hl. subst v.
  unfold invoke, bind. cbn.
  unfold fmap_M, on_part, bind. cbn.
  unfold PluginTool.add_plugin, bind, in_world. cbn.
  unfold deref, bind. cbn. rewrite Hh. cbn. rewrite Hx. cbn.
  by destruct w.
Qed.

Lemma plugin_list_after_store p l w items items' :
  PluginTool.plugins p = VRef l ->
  heap w !! l = Some (OList items) ->
  plugin_list p (World (<[l := OList items']> (heap w)) (stdout w)) =
    Some items'.
Proof.
  intros Hl Hh. unfold plugin_list. rewrite Hl. cbn. unfold deref, bind. cbn.
  rewrite list_lookup_insert_eq; [done|]. by eapply lookup_lt_Some.
Qed.

(** The list of plugins depends on the [plugins] attribute and on the heap
    only. *)
Lemma plugin_list_ext p p' w w' :
  PluginTool.plugins p' = PluginTool.plugins p ->
  heap w' = heap w ->
  plugin_list p' w' = plugin_list p w.
Proof.
  intros Hv Hh. unfold plugin_list. rewrite Hv.
  destruct (PluginTool.plugins p); try done.
  cbn. unfold deref, bind. rewrite Hh. by destruct (heap w !! l) as [[]|].
Qed.

(** *** Construction *)

Lemma init_base name version enabled w :
  BaseTool.__init__ name version enabled w =
    Some (BaseTool.Build name (default "1.0" version) (default true enabled), w).
Proof. reflexivity. Qed.

Lemma init_advanced name version enabled log_file timeout w :
  AdvancedTool.__init__ name version enabled log_file timeout w =
    Some (AdvancedTool.Build
            (BaseTool.Build name (default "2.0" version) (default true enabled))
            log_file (default 30%Z timeout) 0, w).
Proof. reflexivity. Qed.

Lemma init_custom name version enabled custom_config w :
  CustomTool.__init__ name version enabled custom_config w =
    match or_new (default VNone custom_config) (ODict []) w with
    | Some (config, w') =>
        Some (CustomTool.Build
                (BaseTool.Build name (default "1.0" version)
                   (default true enabled)) config, w')
    | None => None
    end.
Proof. reflexivity. Qed.

Lemma init_plugin name version enabled log_file timeout plugins w :
  PluginTool.__init__ name version enabled log_file timeout plugins w =
    match or_new (default VNone plugins) (OList []) w with
    | Some (plugins', w') =>
        Some (PluginTool.Build
                (AdvancedTool.Build
                   (BaseTool.Build name (default "3.0" version)
                      (default true enabled))
                   log_file (default 30%Z timeout) 0) plugins', w')
    | None => None
    end.
Proof. reflexivity. Qed.

(** When the [plugins] argument is left out, or is false, the instance gets
    a new, empty list. *)
Lemma init_plugin_new name version enabled log_file timeout plugins w :
  is_true w (default VNone plugins) = Some false ->
  exists p,
    PluginTool.__init__ name version enabled log_file timeout plugins w =
      Some (p, World (heap w ++ [OList []]) (stdout w)) /\
    PluginTool.plugins p = VRef (length (heap w)) /\
    plugin_list p (World (heap w ++ [OList []]) (stdout w)) = Some [].
Proof.
  intros Hf. rewrite init_plugin, (or_new_false _ _ _ Hf).
  eexists. split; [reflexivity|]. split; [reflexivity|].
  unfold plugin_list. cbn. unfold deref, bind. cbn.
  by rewrite lookup_app_r, Nat.sub_diag.
Qed.

(** When it is true, the instance shares the list with its creator. *)
Lemma init_plugin_shared name version enabled log_file timeout v w :
  is_true w v = Some true ->
  exists p,
    PluginTool.__init__ name version enabled log_file timeout (Some v) w =
      Some (p, w) /\
    PluginTool.plugins p = v.
Proof.
  intros Ht. rewrite init_plugin. cbn. rewrite (or_new_true _ _ _ Ht).
  eexists. split; reflexivity.
Qed.

(** *** One call, then any number of calls *)

Lemma accepted_cons c r cs rs :
  accepted (c :: cs) (r :: rs) = (accepted [c] [r] ++ accepted cs rs)%list.
Proof. destruct c; try done. by destruct r as [| |[]|]. Qed.

Lemma count_runs_cons c cs :
  count_runs (c :: cs) = (count_runs [c] + count_runs cs)%Z.
Proof. destruct c; cbn [count_runs]; lia. Qed.

Lemma count_runs_nonneg cs : (0 <= count_runs cs)%Z.
Proof. induction cs as [|[] cs IH]; cbn [count_runs]; lia. Qed.

Lemma count_runs_repeat n : count_runs (repeat Run n) = Z.of_nat n.
Proof. induction n as [|n IH]; cbn [repeat count_runs]; lia. Qed.

Lemma accepted_no_add cs rs :
  Forall (fun c => meth_of c <> Madd_plugin) cs -> accepted cs rs = [].
Proof.
  intros H. revert rs. induction H as [|c cs Hc _ IH]; intros rs.
  - by destruct rs.
  - destruct rs as [|r rs]; [by destruct c|].
    rewrite accepted_cons, IH, app_nil_r. by destruct c.
Qed.

Lemma plugin_step p w items c :
  plugin_list p w = Some items ->
  exists r p' w',
    invoke py_str c (Plugin p, w) = Some (r, (Plugin p', w')) /\
    PluginTool.plugins p' = PluginTool.plugins p /\
    plugin_list p' w' = Some (items ++ accepted [c] [r]) /\
    (NoDup items -> NoDup (items ++ accepted [c] [r])) /\
    AdvancedTool.execution_count (PluginTool.super_ p') =
      (AdvancedTool.execution_count (PluginTool.super_ p) + count_runs [c])%Z.
Proof.
  intros Hp. destruct c as [| | |x].
  - rewrite (invoke_run_plugin _ _ _ Hp). cbn zeta.
    destruct p as [[b f t n] v]. eexists _, _, _. split; [reflexivity|].
    cbn [accepted]. rewrite app_nil_r. repeat split; try done.
    rewrite <- Hp. by apply plugin_list_ext.
  - rewrite invoke_get_info. eexists _, _, _. split; [reflexivity|].
    cbn [accepted count_runs]. rewrite app_nil_r. repeat split; try done. lia.
  - rewrite invoke_get_stats_plugin. eexists _, _, _. split; [reflexivity|].
    cbn [accepted count_runs]. rewrite app_nil_r. repeat split; try done. lia.
  - destruct (decide (x ∈ items)) as [Hin|Hin].
    + rewrite (invoke_add_plugin_dup _ _ _ _ Hp Hin).
      eexists _, _, _. split; [reflexivity|].
      cbn [accepted count_runs]. rewrite app_nil_r. repeat split; try done. lia.
    + destruct (invoke_add_plugin_new _ _ _ _ Hp Hin) as (l & Hl & ->).
      destruct (plugin_list_inv _ _ _ Hp) as (l' & Hl' & Hh & _).
      assert (l' = l) as -> by congruence.
      eexists _, _, _. split; [reflexivity|].
      cbn [accepted count_runs]. repeat split; try done.
      * by eapply plugin_list_after_store.
      * intros Hnd. apply NoDup_app. repeat split; try done.
        -- intros y Hy ->%list_elem_of_singleton. done.
        -- apply NoDup_singleton.
      * lia.
Qed.

Lemma plugin_trace cs : forall p w items,
  plugin_list p w = Some items ->
  exists rs p' w',
    invoke_all py_str cs (Plugin p, w) = Some (rs, (Plugin p', w')) /\
    PluginTool.plugins p' = PluginTool.plugins p /\
    plugin_list p' w' = Some (items ++ accepted cs rs) /\
    (NoDup items -> NoDup (items ++ accepted cs rs)) /\
    AdvancedTool.execution_count (PluginTool.super_ p') =
      (AdvancedTool.execution_count (PluginTool.super_ p) + count_runs cs)%Z.
Proof.
  induction cs as [|c cs IH]; intros p w items Hp.
  - exists [], p, w. cbn [accepted count_runs]. rewrite app_nil_r.
    repeat split; try done. lia.
  - destruct (plugin_step p w items c Hp) as (r & p1 & w1 & E1 & Hv1 & Hp1 & Hn1 & Hc1).
    destruct (IH p1 w1 _ Hp1) as (rs & p2 & w2 & E2 & Hv2 & Hp2 & Hn2 & Hc2).
    exists (r :: rs), p2, w2.
    rewrite (accepted_cons c r cs rs), (count_runs_cons c cs), app_assoc.
    split; [|repeat split].
    + cbn [invoke_all]. unfold bind at 1. rewrite E1.
      unfold bind at 1. by rewrite E2.
    + congruence.
    + done.
    + auto.
    + lia.
Qed.

Lemma counted_step self w c n :
  wf self w ->
  execution_count_of self = Some n ->
  exists r self' w',
    invoke py_str c (self, w) = Some (r, (self', w')) /\
    wf self' w' /\
    execution_count_of self' = Some (n + count_runs [c])%Z.
Proof.
  intros Hwf Hn. destruct self as [b|cu|a|p]; try discriminate.
  - injection Hn as <-. destruct a as [b f t n].
    destruct c; eexists _, _, _; (split; [reflexivity|]); split; try done;
      cbn; f_equal; lia.
  - injection Hn as <-. destruct Hwf as [items Hp].
    destruct (plugin_step p w items c Hp) as (r & p' & w' & E & _ & Hp' & _ & Hc).
    exists r, (Plugin p'), w'. split; [done|]. split; [by eexists|].
    cbn. by rewrite Hc.
Qed.

Lemma counted_trace cs : forall self w n,
  wf self w ->
  execution_count_of self = Some n ->
  exists rs self' w',
    invoke_all py_str cs (self, w) = Some (rs, (self', w')) /\
    wf self' w' /\
    execution_count_of self' = Some (n + count_runs cs)%Z.
Proof.
  induction cs as [|c cs IH]; intros self w n Hwf Hn.
  - exists [], self, w. repeat split; try done.
    cbn [count_runs]. by rewrite Z.add_0_r.
  - destruct (counted_step self w c n Hwf Hn) as (r & s1 & w1 & E1 & Hwf1 & Hn1).
    destruct (IH s1 w1 _ Hwf1 Hn1) as (rs & s2 & w2 & E2 & Hwf2 & Hn2).
    exists (r :: rs), s2, w2. split; [|split; [done|]].
    + cbn [invoke_all]. unfold bind at 1. rewrite E1.
      unfold bind at 1. by rewrite E2.
    + rewrite Hn2, (count_runs_cons c cs). f_equal. lia.
Qed.

Lemma init_plugin_listed name version enabled log_file timeout plugins w :
  list_arg w plugins ->
  exists p w1 items,
    PluginTool.__init__ name version enabled log_file timeout plugins w =
      Some (p, w1) /\
    plugin_list p w1 = Some items /\
    AdvancedTool.execution_count (PluginTool.super_ p) = 0%Z /\
    (items = [] \/
     fst <$> deref_list (default VNone plugins) w = Some items).
Proof.
  assert (Hnew : is_true w (default VNone plugins) = Some false ->
    exists p w1 items,
      PluginTool.__init__ name version enabled log_file timeout plugins w =
        Some (p, w1) /\
      plugin_list p w1 = Some items /\
      AdvancedTool.execution_count (PluginTool.super_ p) = 0%Z /\
      (items = [] \/
       fst <$> deref_list (default VNone plugins) w = Some items)).
  { intros Hf.
    destruct (init_plugin_new name version enabled log_file timeout _ _ Hf)
      as (p & E & _ & Hp).
    exists p, (World (heap w ++ [OList []]) (stdout w)), [].
    repeat split; try done; [|by left].
    rewrite init_plugin, (or_new_false _ _ _ Hf) in E. by injection E as <-. }
  intros [Hf|[items Hd]]; [by apply Hnew|].
  destruct (deref_list_inv _ _ _ Hd) as (l & Hv & Hh & Hd').
  assert (is_true w (default VNone plugins) =
          Some (obj_truthy (OList items))) as Ht.
  { unfold is_true. rewrite Hv. cbn. unfold deref, bind. by rewrite Hh. }
  destruct items as [|x items]; [by apply Hnew|].
  destruct plugins as [v|]; [|discriminate]. cbn in Hv, Ht. subst v.
  destruct (init_plugin_shared name version enabled log_file timeout _ _ Ht)
    as (p & E & Hp).
  exists p, w, (x :: items). repeat split; try done.
  - unfold plugin_list. rewrite Hp. done.
  - rewrite init_plugin in E. cbn in E. rewrite (or_new_true _ _ _ Ht) in E.
    by injection E as <-.
  - by right.
Qed.

Lemma advanced_run_eq a w :
  let name := BaseTool.name (AdvancedTool.super_ a) in
  let n := (AdvancedTool.execution_count a + 1)%Z in
  AdvancedTool.run (a, w) =
    Some ([("status", VStr "success");
           ("tool_name", VStr name);
           ("execution_count", VInt n);
           ("timeout", VInt (AdvancedTool.timeout a))],
          (AdvancedTool.Build (AdvancedTool.super_ a) (AdvancedTool.log_file a)
             (AdvancedTool.timeout a) n,
           World (heap w) (stdout w ++ ["Running advanced tool: " +:+ name]))).
Proof. reflexivity. Qed.

(** ** The claims *)

(** C1, as the specification states it, fails: the constructor stores the
    list it is given as it is, so an instance built from a list with a name
    twice has that name twice in [plugins] right after construction. *)
Lemma C1_constructor_keeps_duplicates :
  exists p w,
    PluginTool.__init__ "svc" None None None None (Some (VRef 0))
      (World [OList ["auth"; "auth"]] []) = Some (p, w) /\
    plugin_list p w = Some ["auth"; "auth"] /\
    ~ NoDup ["auth"; "auth"].
Proof.
  eexists _, _. split; [reflexivity|]. split; [reflexivity|].
  intros Hnd. apply NoDup_cons in Hnd as [Hnotin _].
  apply Hnotin. by apply list_elem_of_singleton.
Qed.

(** C1, amended: for every PluginTool instance whose constructor was given no
    [plugins] argument, a false one, or a list without duplicates, at every
    reachable state (right after construction and after any sequence of
    calls of [run], [get_info], [get_stats] and [add_plugin]) the list
    [plugins] has no duplicates; it is the initial list followed by the names
    that [add_plugin] accepted, in the order of the calls (insertion order is
    kept); the attribute always refers to the same list object; and a
    sequence of calls without [add_plugin] leaves the list as it was
    ([add_plugin] is the only method that changes it). *)
Theorem C1_plugins_duplicate_free
    name version enabled log_file timeout plugins w cs :
  duplicate_free_arg w plugins ->
  exists p w1 items0 rs p' w',
    PluginTool.__init__ name version enabled log_file timeout plugins w =
      Some (p, w1) /\
    plugin_list p w1 = Some items0 /\
    NoDup items0 /\
    invoke_all py_str cs (Plugin p, w1) = Some (rs, (Plugin p', w')) /\
    PluginTool.plugins p' = PluginTool.plugins p /\
    plugin_list p' w' = Some (items0 ++ accepted cs rs) /\
    NoDup (items0 ++ accepted cs rs) /\
    (Forall (fun c => meth_of c <> Madd_plugin) cs ->
     plugin_list p' w' = Some items0).
Proof.
  intros Harg.
  assert (list_arg w plugins) as Hlist.
  { destruct Harg as [Hf|(items & Hd & _)]; [by left|right; by eexists]. }
  destruct (init_plugin_listed name version enabled log_file timeout _ _ Hlist)
    as (p & w1 & items0 & E & Hp & _ & Hitems).
  assert (NoDup items0) as Hnd.
  { destruct Hitems as [->|Hd]; [apply NoDup_nil_2|].
    destruct Harg as [Hf|(items & Hd' & Hnd)]; [|congruence].
    destruct (deref_list_inv _ _ _ Hd) as (l & Hv & Hh & _).
    unfold is_true in Hf. rewrite Hv in Hf. cbn in Hf.
    unfold deref, bind in Hf. rewrite Hh in Hf. cbn in Hf.
    destruct items0; [apply NoDup_nil_2|discriminate]. }
  destruct (plugin_trace cs p w1 items0 Hp)
    as (rs & p' & w' & E' & Hv' & Hp' & Hnd' & _).
  exists p, w1, items0, rs, p', w'. repeat split; try done; [by auto|].
  intros Hno. by rewrite Hp', (accepted_no_add _ _ Hno), app_nil_r.
Qed.

(** C2: for every AdvancedTool or PluginTool instance, a call of [run]
    succeeds and raises [execution_count] by exactly 1; after any sequence of
    calls the counter is its old value plus the number of calls of [run] in
    the sequence, so it never decreases and is never reset; [PluginTool.run]
    leaves the instance in the state in which the [run] of AdvancedTool,
    called on it once, left it; and [N] calls of [run] on a newly built
    instance of either class give [execution_count == N]. *)
Theorem C2_run_counts_executions
    self w n cs p wp items name version enabled log_file timeout plugins w0 N :
  wf self w ->
  execution_count_of self = Some n ->
  plugin_list p wp = Some items ->
  list_arg w0 plugins ->
  (exists r self' w',
     invoke py_str Run (self, w) = Some (r, (self', w')) /\
     execution_count_of self' = Some (n + 1)%Z) /\
  (exists rs self' w' n',
     invoke_all py_str cs (self, w) = Some (rs, (self', w')) /\
     execution_count_of self' = Some n' /\
     n' = (n + count_runs cs)%Z /\ (n <= n')%Z) /\
  (exists d0 a' w' d,
     AdvancedTool.run (PluginTool.super_ p, wp) = Some (d0, (a', w')) /\
     PluginTool.run (p, wp) =
       Some (d, (PluginTool.Build a' (PluginTool.plugins p), w')) /\
     AdvancedTool.execution_count a' =
       (AdvancedTool.execution_count (PluginTool.super_ p) + 1)%Z) /\
  (exists a w1 rs self' w',
     AdvancedTool.__init__ name version enabled log_file timeout w0 =
       Some (a, w1) /\
     invoke_all py_str (repeat Run N) (Advanced a, w1) =
       Some (rs, (self', w')) /\
     execution_count_of self' = Some (Z.of_nat N)) /\
  (exists p0 w1 rs self' w',
     PluginTool.__init__ name version enabled log_file timeout plugins w0 =
       Some (p0, w1) /\
     invoke_all py_str (repeat Run N) (Plugin p0, w1) =
       Some (rs, (self', w')) /\
     execution_count_of self' = Some (Z.of_nat N)).
Proof.
  intros Hwf Hn Hp Harg. split; [|split; [|split; [|split]]].
  - destruct (counted_step self w Run n Hwf Hn) as (r & s' & w' & E & _ & Hn').
    by exists r, s', w'.
  - destruct (counted_trace cs self w n Hwf Hn) as (rs & s' & w' & E & _ & Hn').
    exists rs, s', w', (n + count_runs cs)%Z. repeat split; try done.
    pose proof (count_runs_nonneg cs). lia.
  - apply plugin_list_inv in Hp as (l & Hl & Hh & _).
    destruct p as [[b f t m] v]. cbn in Hl. subst v.
    eexists _, _, _, _. rewrite advanced_run_eq.
    split; [reflexivity|]. split; [|reflexivity].
    unfold PluginTool.run, bind, on_part. cbn.
    unfold in_world, py_len, bind. cbn. unfold deref, bind. cbn.
    rewrite Hh. reflexivity.
  - rewrite init_advanced.
    set (a := AdvancedTool.Build _ _ _ _).
    destruct (counted_trace (repeat Run N) (Advanced a) w0 0%Z)
      as (rs & s' & w' & E & _ & Hn'); [done..|].
    exists a, w0, rs, s', w'. repeat split; try done.
    by rewrite Hn', count_runs_repeat.
  - destruct (init_plugin_listed name version enabled log_file timeout _ _ Harg)
      as (p0 & w1 & items0 & E & Hp0 & Hc & _).
    destruct (counted_trace (repeat Run N) (Plugin p0) w1 0%Z)
      as (rs & s' & w' & E' & _ & Hn').
    + by exists items0.
    + cbn. by rewrite Hc.
    + exists p0, w1, rs, s', w'. repeat split; try done.
      by rewrite Hn', count_runs_repeat.
Qed.

(** C3, as the specification states it, fails: CustomTool is built with the
    very default version of its parent class BaseTool. *)
Lemma C3_custom_default_is_parent_default :
  base_class cCustomTool = Some cBaseTool /\
  exists c w b w',
    CustomTool.__init__ "fmt" None None None (World [] []) = Some (c, w) /\
    BaseTool.__init__ "fmt" None None (World [] []) = Some (b, w') /\
    BaseTool.version (CustomTool.super_ c) = BaseTool.version b.
Proof. split; [reflexivity|]. by eexists _, _, _, _. Qed.

(** C3, amended: when the [version] argument is left out, construction gives
    a BaseTool the version "1.0", a CustomTool the version "1.0" as well (the
    default of its parent), an AdvancedTool "2.0" and a PluginTool "3.0";
    these three defaults are pairwise distinct. *)
Theorem C3_default_versions
    name enabled custom_config log_file timeout plugins w :
  valid w (default VNone custom_config) ->
  valid w (default VNone plugins) ->
  (exists b w',
     BaseTool.__init__ name None enabled w = Some (b, w') /\
     BaseTool.version b = "1.0") /\
  (exists c w',
     CustomTool.__init__ name None enabled custom_config w = Some (c, w') /\
     BaseTool.version (base_of (Custom c)) = "1.0") /\
  (exists a w',
     AdvancedTool.__init__ name None enabled log_file timeout w =
       Some (a, w') /\
     BaseTool.version (base_of (Advanced a)) = "2.0") /\
  (exists p w',
     PluginTool.__init__ name None enabled log_file timeout plugins w =
       Some (p, w') /\
     BaseTool.version (base_of (Plugin p)) = "3.0") /\
  NoDup ["1.0"; "2.0"; "3.0"].
Proof.
  intros Hc Hp. repeat split.
  - by eexists _, _.
  - rewrite init_custom.
    destruct (or_new_valid _ (ODict []) _ Hc) as (v & w' & ->). by eexists _, _.
  - by eexists _, _.
  - rewrite init_plugin.
    destruct (or_new_valid _ (OList []) _ Hp) as (v & w' & ->). by eexists _, _.
  - compute_done.
Qed.

(** C4: for every PluginTool instance in every state, [run] returns the
    mapping with the keys [status] (value "success"), [tool_name],
    [execution_count] and [timeout] of the [run] of AdvancedTool, then
    [plugins], which is the list of the instance itself, and [plugin_count],
    which is the length of that list; the list is as it was before the call.
    In particular, for a PluginTool built with the name "svc" alone, on which
    [add_plugin("auth")] returned [True], [run] returns a mapping with
    [execution_count] 1, [plugins] the list ["auth"] and [plugin_count] 1. *)
Theorem C4_plugin_run_result p w items w0 :
  plugin_list p w = Some items ->
  (exists d0 a' wa p' w',
     AdvancedTool.run (PluginTool.super_ p, w) = Some (d0, (a', wa)) /\
     dict_keys d0 = ["status"; "tool_name"; "execution_count"; "timeout"] /\
     invoke py_str Run (Plugin p, w) =
       Some (RDict (d0 ++ [("plugins", PluginTool.plugins p);
                           ("plugin_count", VInt (Z.of_nat (length items)))]),
             (Plugin p', w')) /\
     dict_get "status" d0 = Some (VStr "success") /\
     PluginTool.plugins p' = PluginTool.plugins p /\
     plugin_list p' w' = Some items) /\
  (exists p1 w1 w2 p3 w3 l,
     PluginTool.__init__ "svc" None None None None None w0 = Some (p1, w1) /\
     invoke py_str (AddPlugin "auth") (Plugin p1, w1) =
       Some (RBool true, (Plugin p1, w2)) /\
     invoke py_str Run (Plugin p1, w2) =
       Some (RDict [("status", VStr "success");
                    ("tool_name", VStr "svc");
                    ("execution_count", VInt 1);
                    ("timeout", VInt 30);
                    ("plugins", VRef l);
                    ("plugin_count", VInt 1)],
             (Plugin p3, w3)) /\
     heap w3 !! l = Some (OList ["auth"])).
Proof.
  intros Hp. split.
  - rewrite advanced_run_eq, (invoke_run_plugin _ _ _ Hp). cbn zeta.
    destruct p as [[b f t n] v].
    eexists _, _, _, _, _. split; [reflexivity|].
    repeat split; try done.
    rewrite <- Hp. by apply plugin_list_ext.
  - destruct (init_plugin_new "svc" None None None None None w0)
      as (p1 & E1 & Hl1 & Hp1); [done|].
    set (w1 := World (heap w0 ++ [OList []]) (stdout w0)) in *.
    destruct (invoke_add_plugin_new p1 w1 [] "auth" Hp1) as (l & Hl & E2).
    { apply not_elem_of_nil. }
    destruct (plugin_list_inv _ _ _ Hp1) as (l' & Hl' & Hh & _).
    assert (l' = l) as -> by congruence.
    pose proof (plugin_list_after_store p1 l w1 [] ([] ++ ["auth"]) Hl Hh)
      as Hp2.
    set (w2 := World (<[l:=OList ([] ++ ["auth"])]> (heap w1)) (stdout w1)) in *.
    pose proof (invoke_run_plugin p1 w2 _ Hp2) as E3. cbn zeta in E3.
    rewrite init_plugin in E1. cbn in E1.
    injection E1 as <-.
    eexists _, w1, w2, _, _, l. split; [reflexivity|].
    split; [exact E2|]. cbn in Hl. injection Hl as <-.
    split; [exact E3|].
    destruct (plugin_list_inv _ _ _ Hp2) as (l2 & Hl2 & Hh2 & _).
    cbn in Hl2. injection Hl2 as <-. exact Hh2.
Qed.

(** C5: for every PluginTool instance and every name, [add_plugin] does not
    fail; when the name is not in [plugins] it returns [True] and the name is
    appended at the end of the list, and nothing else changes; when the name
    is in [plugins] it returns [False] and nothing changes at all.  So on a
    PluginTool built without plugins [add_plugin("x")] returns [True] and
    [plugins] is ["x"], and a second [add_plugin("x")] returns [False] and
    [plugins] is still ["x"]. *)
Theorem C5_add_plugin p w items x name w0 :
  plugin_list p w = Some items ->
  (exists b w', invoke py_str (AddPlugin x) (Plugin p, w) =
                  Some (RBool b, (Plugin p, w'))) /\
  (x ∉ items ->
   exists l,
     PluginTool.plugins p = VRef l /\
     invoke py_str (AddPlugin x) (Plugin p, w) =
       Some (RBool true,
             (Plugin p,
              World (<[l := OList (items ++ [x])]> (heap w)) (stdout w))) /\
     plugin_list p (World (<[l := OList (items ++ [x])]> (heap w)) (stdout w))
       = Some (items ++ [x])) /\
  (x ∈ items ->
   invoke py_str (AddPlugin x) (Plugin p, w) =
     Some (RBool false, (Plugin p, w))) /\
  (exists p1 w1 w2,
     PluginTool.__init__ name None None None None None w0 = Some (p1, w1) /\
     plugin_list p1 w1 = Some [] /\
     invoke py_str (AddPlugin "x") (Plugin p1, w1) =
       Some (RBool true, (Plugin p1, w2)) /\
     plugin_list p1 w2 = Some ["x"] /\
     invoke py_str (AddPlugin "x") (Plugin p1, w2) =
       Some (RBool false, (Plugin p1, w2))).
Proof.
  intros Hp.
  assert (Hnew : forall q u xs y, plugin_list q u = Some xs -> y ∉ xs ->
    exists l,
      PluginTool.plugins q = VRef l /\
      invoke py_str (AddPlugin y) (Plugin q, u) =
        Some (RBool true,
              (Plugin q,
               World (<[l := OList (xs ++ [y])]> (heap u)) (stdout u))) /\
      plugin_list q (World (<[l := OList (xs ++ [y])]> (heap u)) (stdout u))
        = Some (xs ++ [y])).
  { intros q u xs y Hq Hy.
    destruct (invoke_add_plugin_new q u xs y Hq Hy) as (l & Hl & E).
    destruct (plugin_list_inv _ _ _ Hq) as (l' & Hl' & Hh & _).
    assert (l' = l) as -> by congruence.
    exists l. repeat split; try done. by eapply plugin_list_after_store. }
  split; [|split; [|split]].
  - destruct (decide (x ∈ items)) as [Hin|Hin].
    + eexists _, _. by eapply invoke_add_plugin_dup.
    + destruct (Hnew p w items x Hp Hin) as (l & _ & E & _). by eexists _, _.
  - by apply Hnew.
  - by eapply invoke_add_plugin_dup.
  - destruct (init_plugin_new name None None None None None w0)
      as (p1 & E1 & _ & Hp1); [done|].
    destruct (Hnew p1 _ [] "x" Hp1) as (l & _ & E2 & Hp2).
    { apply not_elem_of_nil. }
    eexists p1, _, _. repeat split; try done.
    eapply invoke_add_plugin_dup; [exact Hp2|].
    by apply list_elem_of_singleton.
Qed.

(** C6: for every instance of every class, in every state, [get_info]
    returns the mapping with exactly the keys [name], [version], [enabled],
    whose values are the attributes of the instance; it changes neither the
    instance nor the world; no class other than BaseTool defines it, so every
    class runs the definition of BaseTool; and the mapping has no entry for
    [custom_config], [timeout], [log_file], [execution_count] or
    [plugins]. *)
Theorem C6_get_info self w :
  exists d,
    invoke py_str GetInfo (self, w) = Some (RDict d, (self, w)) /\
    d = [("name", VStr (BaseTool.name (base_of self)));
         ("version", VStr (BaseTool.version (base_of self)));
         ("enabled", VBool (BaseTool.enabled (base_of self)))] /\
    dict_keys d = ["name"; "version"; "enabled"] /\
    Forall (fun key => dict_get key d = dict_get key (attrs self))
      (dict_keys d) /\
    Forall (fun key => dict_get key d = None)
      ["custom_config"; "timeout"; "log_file"; "execution_count"; "plugins"] /\
    (forall k, resolve k Mget_info = Some cBaseTool) /\
    (forall k, defines k Mget_info =
               match k with cBaseTool => true | _ => false end).
Proof.
  eexists. split; [apply invoke_get_info|]. split; [reflexivity|].
  split; [reflexivity|]. split; [|split; [|split]].
  - destruct self as [b|[b v]|[b f t n]|[[b f t n] v]];
      repeat constructor.
  - repeat constructor.
  - apply get_info_not_overridden.
  - by intros [].
Qed.

(** C7: for every CustomTool instance, [run] returns the string made of
    "Custom tool ", the name, " executed with config: " and the text of
    [custom_config], so both occur in it, and changes no attribute; a
    CustomTool built with the name "fmt" and the mapping with the one entry
    "mode": "fast" returns a string in which "fmt" and the text of that
    mapping occur; and when the [custom_config] argument is left out or is
    false, the attribute refers to a new object, which is an empty
    mapping. *)
Theorem C7_custom_tool
    c w w1 l name version enabled custom_config w0 :
  heap w1 !! l = Some (ODict [("mode", VStr "fast")]) ->
  is_true w0 (default VNone custom_config) = Some false ->
  (exists s w',
     invoke py_str Run (Custom c, w) = Some (RStr s, (Custom c, w')) /\
     s = "Custom tool " +:+ BaseTool.name (CustomTool.super_ c) +:+
         " executed with config: " +:+
         py_str (heap w) (CustomTool.custom_config c) /\
     occurs_in (BaseTool.name (CustomTool.super_ c)) s /\
     occurs_in (py_str (heap w) (CustomTool.custom_config c)) s) /\
  (exists c1 s w',
     CustomTool.__init__ "fmt" None None (Some (VRef l)) w1 = Some (c1, w1) /\
     invoke py_str Run (Custom c1, w1) = Some (RStr s, (Custom c1, w')) /\
     occurs_in "fmt" s /\
     occurs_in (py_str (heap w1) (VRef l)) s) /\
  (exists c0 w' l0,
     CustomTool.__init__ name version enabled custom_config w0 =
       Some (c0, w') /\
     CustomTool.custom_config c0 = VRef l0 /\
     heap w0 !! l0 = None /\
     heap w' !! l0 = Some (ODict []) /\
     heap w' = heap w0 ++ [ODict []]).
Proof.
  intros Hl Hf.
  assert (Hrun : forall c w,
    exists s w',
      invoke py_str Run (Custom c, w) = Some (RStr s, (Custom c, w')) /\
      s = "Custom tool " +:+ BaseTool.name (CustomTool.super_ c) +:+
          " executed with config: " +:+
          py_str (heap w) (CustomTool.custom_config c) /\
      occurs_in (BaseTool.name (CustomTool.super_ c)) s /\
      occurs_in (py_str (heap w) (CustomTool.custom_config c)) s).
  { clear. intros c w. rewrite invoke_run_custom. cbn zeta.
    eexists _, _. split; [reflexivity|]. split; [reflexivity|]. split.
    - by exists "Custom tool ", (" executed with config: " +:+
        py_str (heap w) (CustomTool.custom_config c)).
    - exists ("Custom tool " +:+ BaseTool.name (CustomTool.super_ c) +:+
        " executed with config: "), EmptyString.
      by rewrite append_nil_r, !append_assoc. }
  split; [apply Hrun|split].
  - assert (is_true w1 (VRef l) = Some true) as Ht.
    { unfold is_true. cbn. unfold deref, bind. by rewrite Hl. }
    set (c1 := CustomTool.Build (BaseTool.Build "fmt" "1.0" true) (VRef l)).
    destruct (Hrun c1 w1) as (s & w' & E & _ & Hname & Hcfg).
    exists c1, s, w'. repeat split; try done.
    rewrite init_custom. cbn. by rewrite (or_new_true _ _ _ Ht).
  - rewrite init_custom, (or_new_false _ _ _ Hf).
    eexists _, _, _. split; [reflexivity|]. cbn. repeat split.
    + by apply lookup_ge_None_2.
    + by rewrite lookup_app_r, Nat.sub_diag.
Qed.

(** C8: for every AdvancedTool or PluginTool instance, [get_stats] returns
    the mapping with exactly the keys [name], [execution_count], [timeout],
    whose values are the attributes of the instance, and changes neither the
    instance nor the world; on a newly built AdvancedTool it returns
    [execution_count] 0. *)
Theorem C8_get_stats self a w name version enabled log_file timeout w0 :
  as_advanced self = Some a ->
  (exists d,
     invoke py_str GetStats (self, w) = Some (RDict d, (self, w)) /\
     d = [("name", VStr (BaseTool.name (AdvancedTool.super_ a)));
          ("execution_count", VInt (AdvancedTool.execution_count a));
          ("timeout", VInt (AdvancedTool.timeout a))] /\
     dict_keys d = ["name"; "execution_count"; "timeout"] /\
     Forall (fun key => dict_get key d = dict_get key (attrs self))
       (dict_keys d)) /\
  (exists a0 d0,
     AdvancedTool.__init__ name version enabled log_file timeout w0 =
       Some (a0, w0) /\
     invoke py_str GetStats (Advanced a0, w0) =
       Some (RDict d0, (Advanced a0, w0)) /\
     dict_get "execution_count" d0 = Some (VInt 0)).
Proof.
  intros Ha. split.
  - destruct self as [b|c|a'|p]; try discriminate; injection Ha as <-.
    + rewrite invoke_get_stats_advanced. eexists. split; [reflexivity|].
      destruct a' as [b f t n]. repeat split; repeat constructor.
    + rewrite invoke_get_stats_plugin. eexists. split; [reflexivity|].
      destruct p as [[b f t n] v]. repeat split; repeat constructor.
  - rewrite init_advanced. eexists _, _. split; [reflexivity|].
    rewrite invoke_get_stats_advanced. by split.
Qed.

Lemma attrs_set_execution_count n self key :
  key <> "execution_count" ->
  dict_get key (attrs (set_execution_count n self)) =
    dict_get key (attrs self).
Proof.
  intros Hkey.
  assert (String.eqb key "execution_count" = false) as Hne
    by by apply String.eqb_neq.
  destruct self as [b|c|[b f t m]|[[b f t m] v]]; try done;
    cbn; rewrite Hne; reflexivity.
Qed.

(** C9: for every instance of every class, [run] succeeds, leaves the heap
    (so the contents of [plugins] and of [custom_config]) as it was, and
    leaves every attribute other than [execution_count] as it was: on an
    AdvancedTool or a PluginTool the instance afterwards is the instance
    before with [execution_count] one higher, and on a BaseTool or a
    CustomTool it is the instance before. *)
Theorem C9_run_changes_only_the_counter self w :
  wf self w ->
  exists r self' w',
    invoke py_str Run (self, w) = Some (r, (self', w')) /\
    heap w' = heap w /\
    class_of self' = class_of self /\
    (forall key, key <> "execution_count" ->
       dict_get key (attrs self') = dict_get key (attrs self)) /\
    self' = match execution_count_of self with
            | Some n => set_execution_count (n + 1) self
            | None => self
            end.
Proof.
  intros Hwf. destruct self as [b|c|a|p].
  - rewrite invoke_run_base. by eexists _, _, _.
  - rewrite invoke_run_custom. by eexists _, _, _.
  - rewrite invoke_run_advanced. cbn zeta. eexists _, _, _.
    split; [reflexivity|]. repeat split; try done.
    intros key Hkey. by apply attrs_set_execution_count.
  - destruct Hwf as [items Hp]. rewrite (invoke_run_plugin _ _ _ Hp).
    cbn zeta. eexists _, _, _.
    split; [reflexivity|]. repeat split; try done.
    intros key Hkey. by apply attrs_set_execution_count.
Qed.

Lemma attrs_set_enabled e self key :
  key <> "enabled" ->
  dict_get key (attrs (set_enabled e self)) = dict_get key (attrs self).
Proof.
  intros Hkey.
  assert (String.eqb key "enabled" = false) as Hne by by apply String.eqb_neq.
  destruct self as [[nm v en]|[[nm v en] c]|[[nm v en] f t m]
                    |[[[nm v en] f t m] ps]];
    cbn; rewrite Hne; reflexivity.
Qed.

(** C10: the flag [enabled] has no influence on [run], [get_stats] and
    [add_plugin]: on two instances that differ in [enabled] only, in the same
    world, each of these calls gives the same result, or fails on both, and
    leaves the same world and instances that again differ in [enabled] only.
    [get_info] alone shows the flag, and in its [enabled] entry only: the two
    mappings differ in nothing else.  No attribute other than [enabled]
    differs between the two instances. *)
Theorem C10_enabled_has_no_influence self w e :
  invoke py_str Run (set_enabled e self, w) =
    enabled_after e (invoke py_str Run (self, w)) /\
  invoke py_str GetStats (set_enabled e self, w) =
    enabled_after e (invoke py_str GetStats (self, w)) /\
  (forall x,
     invoke py_str (AddPlugin x) (set_enabled e self, w) =
       enabled_after e (invoke py_str (AddPlugin x) (self, w))) /\
  (exists d,
     invoke py_str GetInfo (self, w) = Some (RDict d, (self, w)) /\
     invoke py_str GetInfo (set_enabled e self, w) =
       Some (RDict (dict_set "enabled" (VBool e) d), (set_enabled e self, w))) /\
  (forall key, key <> "enabled" ->
     dict_get key (attrs (set_enabled e self)) = dict_get key (attrs self)).
Proof.
  split; [|split; [|split; [|split]]].
  - destruct self as [[nm v en]|[[nm v en] c]|[[nm v en] f t m]
                      |[[[nm v en] f t m] ps]]; try reflexivity.
    destruct ps as [| | | |l]; try reflexivity.
    unfold invoke, bind. cbn.
    unfold fmap_M, on_part, bind. cbn.
    unfold PluginTool.run, bind, on_part. cbn.
    unfold in_world, py_len, bind. cbn. unfold deref, bind. cbn.
    by destruct (heap w !! l) as [[items|d]|].
  - by destruct self as [[nm v en]|[[nm v en] c]|[[nm v en] f t m]
                         |[[[nm v en] f t m] ps]].
  - intros x.
    destruct self as [[nm v en]|[[nm v en] c]|[[nm v en] f t m]
                      |[[[nm v en] f t m] ps]]; try reflexivity.
    destruct ps as [| | | |l]; try reflexivity.
    unfold invoke, bind. cbn.
    unfold fmap_M, on_part, bind. cbn.
    unfold PluginTool.add_plugin, bind, in_world. cbn.
    unfold deref, bind. cbn.
    destruct (heap w !! l) as [[items|d]|] eqn:Hh; try reflexivity. cbn.
    destruct (list_in x items); cbn; [reflexivity|].
    unfold deref, store, bind. cbn. rewrite Hh. cbn. by rewrite Hh.
  - eexists. split; [apply invoke_get_info|]. rewrite invoke_get_info.
    by destruct self as [[nm v en]|[[nm v en] c]|[[nm v en] f t m]
                         |[[[nm v en] f t m] ps]].
  - intros key. apply attrs_set_enabled.
Qed.

End Properties.

(** ** The statements at concrete instances *)

Example fmt_run :
  invoke str_of Run (Custom fmt, mode_world) =
    Some (RStr "Custom tool fmt executed with config: {'mode': 'fast'}",
          (Custom fmt,
           World (heap mode_world) ["Running custom tool: fmt"])).
Proof. reflexivity. Qed.

Example svc_session :
  invoke_all str_of [AddPlugin "auth"; AddPlugin "cache"; Run; GetStats]
    (Plugin svc, auth_world) =
    Some ([RBool false; RBool true;
           RDict [("status", VStr "success"); ("tool_name", VStr "svc");
                  ("execution_count", VInt 5); ("timeout", VInt 30);
                  ("plugins", VRef 0); ("plugin_count", VInt 2)];
           RDict [("name", VStr "svc"); ("execution_count", VInt 5);
                  ("timeout", VInt 30)]],
          (set_execution_count 5 (Plugin svc),
           World [OList ["auth"; "cache"]] ["Running advanced tool: svc"])).
Proof. reflexivity. Qed.

Lemma C1_witness :
  duplicate_free_arg auth_world (Some (VRef 0)) /\
  exists p w1 items0 rs p' w',
    PluginTool.__init__ "svc" None None None None (Some (VRef 0)) auth_world =
      Some (p, w1) /\
    plugin_list p w1 = Some items0 /\
    NoDup items0 /\
    invoke_all str_of [AddPlugin "auth"; AddPlugin "cache"; Run] (Plugin p, w1)
      = Some (rs, (Plugin p', w')) /\
    PluginTool.plugins p' = PluginTool.plugins p /\
    plugin_list p' w' =
      Some (items0 ++ accepted [AddPlugin "auth"; AddPlugin "cache"; Run] rs) /\
    NoDup (items0 ++ accepted [AddPlugin "auth"; AddPlugin "cache"; Run] rs) /\
    (Forall (fun c => meth_of c <> Madd_plugin)
       [AddPlugin "auth"; AddPlugin "cache"; Run] ->
     plugin_list p' w' = Some items0).
Proof.
  assert (duplicate_free_arg auth_world (Some (VRef 0))) as H.
  { right. exists ["auth"]. split; [reflexivity|]. apply NoDup_singleton. }
  split; [exact H|].
  exact (C1_plugins_duplicate_free str_of "svc" None None None None
           (Some (VRef 0)) auth_world
           [AddPlugin "auth"; AddPlugin "cache"; Run] H).
Defined.

Lemma C2_witness :
  wf (Advanced job) empty_world /\
  execution_count_of (Advanced job) = Some 0%Z /\
  plugin_list svc auth_world = Some ["auth"] /\
  list_arg empty_world None /\
  (exists r self' w',
     invoke str_of Run (Advanced job, empty_world) = Some (r, (self', w')) /\
     execution_count_of self' = Some (0 + 1)%Z) /\
  (exists rs self' w' n',
     invoke_all str_of [Run; GetStats; Run] (Advanced job, empty_world) =
       Some (rs, (self', w')) /\
     execution_count_of self' = Some n' /\
     n' = (0 + count_runs [Run; GetStats; Run])%Z /\ (0 <= n')%Z).
Proof.
  assert (wf (Advanced job) empty_world) as Hwf by exact I.
  assert (execution_count_of (Advanced job) = Some 0%Z) as Hn by reflexivity.
  assert (plugin_list svc auth_world = Some ["auth"]) as Hp by reflexivity.
  assert (list_arg empty_world None) as Harg by (left; reflexivity).
  pose proof (C2_run_counts_executions str_of (Advanced job) empty_world 0%Z
                [Run; GetStats; Run] svc auth_world ["auth"]
                "svc" None None None None None empty_world 3
                Hwf Hn Hp Harg) as (H1 & H2 & _).
  repeat split; try assumption.
Defined.

Lemma C3_witness :
  valid mode_world (default VNone (Some (VRef 0))) /\
  valid mode_world (default VNone None) /\
  NoDup ["1.0"; "2.0"; "3.0"] /\
  exists c w',
    CustomTool.__init__ "fmt" None None (Some (VRef 0)) mode_world =
      Some (c, w') /\
    BaseTool.version (base_of (Custom c)) = "1.0".
Proof.
  assert (valid mode_world (default VNone (Some (VRef 0)))) as Hc
    by (eexists; reflexivity).
  assert (valid mode_world (default VNone None)) as Hp by exact I.
  pose proof (C3_default_versions "fmt" None (Some (VRef 0)) None None None
                mode_world Hc Hp) as (_ & Hcustom & _ & _ & Hnd).
  split; [exact Hc|]. split; [exact Hp|].
  split; [exact Hnd|exact Hcustom].
Defined.

Lemma C4_witness :
  plugin_list svc auth_world = Some ["auth"] /\
  exists d0 a' wa p' w',
    AdvancedTool.run (PluginTool.super_ svc, auth_world) =
      Some (d0, (a', wa)) /\
    dict_keys d0 = ["status"; "tool_name"; "execution_count"; "timeout"] /\
    invoke str_of Run (Plugin svc, auth_world) =
      Some (RDict (d0 ++ [("plugins", PluginTool.plugins svc);
                          ("plugin_count", VInt (Z.of_nat (length ["auth"])))]),
            (Plugin p', w')) /\
    dict_get "status" d0 = Some (VStr "success") /\
    PluginTool.plugins p' = PluginTool.plugins svc /\
    plugin_list p' w' = Some ["auth"].
Proof.
  assert (plugin_list svc auth_world = Some ["auth"]) as Hp by reflexivity.
  split; [exact Hp|].
  exact (proj1 (C4_plugin_run_result str_of svc auth_world ["auth"]
                  empty_world Hp)).
Defined.

Lemma C5_witness :
  plugin_list svc auth_world = Some ["auth"] /\
  ("cache" ∉ ["auth"]) /\
  ("auth" ∈ ["auth"]) /\
  (exists l,
     PluginTool.plugins svc = VRef l /\
     invoke str_of (AddPlugin "cache") (Plugin svc, auth_world) =
       Some (RBool true,
             (Plugin svc,
              World (<[l := OList (["auth"] ++ ["cache"])]> (heap auth_world))
                (stdout auth_world))) /\
     plugin_list svc
       (World (<[l := OList (["auth"] ++ ["cache"])]> (heap auth_world))
          (stdout auth_world)) = Some (["auth"] ++ ["cache"])) /\
  invoke str_of (AddPlugin "auth") (Plugin svc, auth_world) =
    Some (RBool false, (Plugin svc, auth_world)).
Proof.
  assert (plugin_list svc auth_world = Some ["auth"]) as Hp by reflexivity.
  assert ("cache" ∉ ["auth"]) as Hnew.
  { intros Hin%list_elem_of_singleton. discriminate. }
  assert ("auth" ∈ ["auth"]) as Hold by (apply list_elem_of_singleton; reflexivity).
  split; [exact Hp|]. split; [exact Hnew|]. split; [exact Hold|]. split.
  - exact (proj1 (proj2 (C5_add_plugin str_of svc auth_world ["auth"] "cache"
                           "svc" empty_world Hp)) Hnew).
  - exact (proj1 (proj2 (proj2 (C5_add_plugin str_of svc auth_world ["auth"]
                                  "auth" "svc" empty_world Hp))) Hold).
Defined.

Lemma C7_witness :
  heap mode_world !! 0 = Some (ODict [("mode", VStr "fast")]) /\
  is_true empty_world (default VNone None) = Some false /\
  (exists c1 s w',
     CustomTool.__init__ "fmt" None None (Some (VRef 0)) mode_world =
       Some (c1, mode_world) /\
     invoke str_of Run (Custom c1, mode_world) =
       Some (RStr s, (Custom c1, w')) /\
     occurs_in "fmt" s /\
     occurs_in (str_of (heap mode_world) (VRef 0)) s) /\
  (exists c0 w' l0,
     CustomTool.__init__ "fmt" None None None empty_world = Some (c0, w') /\
     CustomTool.custom_config c0 = VRef l0 /\
     heap empty_world !! l0 = None /\
     heap w' !! l0 = Some (ODict []) /\
     heap w' = heap empty_world ++ [ODict []]).
Proof.
  assert (heap mode_world !! 0 = Some (ODict [("mode", VStr "fast")])) as Hl
    by reflexivity.
  assert (is_true empty_world (default VNone None) = Some false) as Hf
    by reflexivity.
  split; [exact Hl|]. split; [exact Hf|].
  exact (proj2 (C7_custom_tool str_of fmt mode_world mode_world 0
                  "fmt" None None None empty_world Hl Hf)).
Defined.

Lemma C8_witness :
  as_advanced (Plugin svc) = Some (PluginTool.super_ svc) /\
  exists d,
    invoke str_of GetStats (Plugin svc, auth_world) =
      Some (RDict d, (Plugin svc, auth_world)) /\
    d = [("name", VStr "svc"); ("execution_count", VInt 4);
         ("timeout", VInt 30)] /\
    dict_keys d = ["name"; "execution_count"; "timeout"] /\
    Forall (fun key => dict_get key d = dict_get key (attrs (Plugin svc)))
      (dict_keys d).
Proof.
  assert (as_advanced (Plugin svc) = Some (PluginTool.super_ svc)) as Ha
    by reflexivity.
  split; [exact Ha|].
  exact (proj1 (C8_get_stats str_of (Plugin svc) (PluginTool.super_ svc)
                  auth_world "job" None None None None empty_world Ha)).
Defined.

Lemma C9_witness :
  wf (Plugin svc) auth_world /\
  exists r self' w',
    invoke str_of Run (Plugin svc, auth_world) = Some (r, (self', w')) /\
    heap w' = heap auth_world /\
    class_of self' = class_of (Plugin svc) /\
    (forall key, key <> "execution_count" ->
       dict_get key (attrs self') = dict_get key (attrs (Plugin svc))) /\
    self' = match execution_count_of (Plugin svc) with
            | Some n => set_execution_count (n + 1) (Plugin svc)
            | None => Plugin svc
            end.
Proof.
  assert (wf (Plugin svc) auth_world) as Hwf by (eexists; reflexivity).
  split; [exact Hwf|].
  exact (C9_run_changes_only_the_counter str_of (Plugin svc) auth_world Hwf).
Defined.

Lemma C10_witness :
  "name" <> "enabled" /\
  dict_get "name" (attrs (set_enabled false (Plugin svc))) =
    dict_get "name" (attrs (Plugin svc)).
Proof.
  assert ("name" <> "enabled") as Hkey by discriminate.
  split; [exact Hkey|].
  exact (proj2 (proj2 (proj2 (proj2
           (C10_enabled_has_no_influence str_of (Plugin svc) auth_world false))))
           "name" Hkey).
Defined.

(** ** Further properties of the tool hierarchy *)

Lemma after_runs_0 self : after_runs 0 self = self.
Proof.
  destruct self as [b|c|[b f t n]|[[b f t n] v]]; try done;
    unfold after_runs; cbn; by rewrite Z.add_0_r.
Qed.

Lemma after_runs_add k1 k2 self :
  after_runs k2 (after_runs k1 self) = after_runs (k1 + k2) self.
Proof.
  destruct self as [b|c|[b f t n]|[[b f t n] v]]; try done;
    unfold after_runs; cbn; by rewrite Z.add_assoc.
Qed.

Lemma run_notice_after_runs k self :
  run_notice (after_runs k self) = run_notice self.
Proof. by destruct self as [b|c|[b f t n]|[[b f t n] v]]. Qed.

Lemma plugins_loc_after_runs k self :
  plugins_loc (after_runs k self) = plugins_loc self.
Proof. by destruct self as [b|c|[b f t n]|[[b f t n] v]]. Qed.




Lemma execution_count_after_runs k self n :
  execution_count_of self = Some n ->
  execution_count_of (after_runs k self) = Some (n + k)%Z.
Proof.
  destruct self as [b|c|[b f t m]|[[b f t m] v]]; try done;
    by intros [= <-].
Qed.

Lemma plugins_loc_plugin p l :
  PluginTool.plugins p = VRef l -> plugins_loc (Plugin p) = Some l.
Proof. intros H. cbn. by rewrite H. Qed.

Section Further.

Variable py_str : list obj -> value -> string.

(** What one call does to the instance and to the world. *)
Lemma call_step self w c :
  wf self w ->
  exists r self' w',
    invoke py_str c (self, w) = Some (r, (self', w')) /\
    self' = after_runs (count_runs [c]) self /\
    wf self' w' /\
    stdout w' =
      stdout w ++ repeat (run_notice self) (Z.to_nat (count_runs [c])) /\
    length (heap w') = length (heap w) /\
    (forall l, plugins_loc self <> Some l -> heap w' !! l = heap w !! l).
Proof.
  intros Hwf. destruct self as [b|cu|a|p].
  - destruct c; eexists _, _, _; (split; [reflexivity|]);
      repeat split; cbn; by rewrite ?app_nil_r.
  - destruct cu as [b v].
    destruct c; eexists _, _, _; (split; [reflexivity|]);
      repeat split; cbn; by rewrite ?app_nil_r.
  - destruct a as [b f t n].
    destruct c; eexists _, _, _; (split; [reflexivity|]);
      repeat split; cbn; rewrite ?app_nil_r, ?Z.add_0_r; done.
  - destruct Hwf as [items Hp]. destruct c as [| | |x].
    + rewrite (invoke_run_plugin py_str _ _ _ Hp). cbn zeta.
      eexists _, _, _. split; [reflexivity|]. repeat split; try done.
      exists items. rewrite <- Hp. by apply plugin_list_ext.
    + rewrite invoke_get_info. eexists _, _, _. split; [reflexivity|].
      cbn [count_runs]. rewrite after_runs_0. cbn.
      rewrite app_nil_r. repeat split; try done; by exists items.
    + rewrite invoke_get_stats_plugin. eexists _, _, _. split; [reflexivity|].
      cbn [count_runs]. rewrite after_runs_0. cbn.
      rewrite app_nil_r. repeat split; try done; by exists items.
    + cbn [count_runs]. rewrite after_runs_0.
      destruct (decide (x ∈ items)) as [Hin|Hin].
      * rewrite (invoke_add_plugin_dup py_str _ _ _ _ Hp Hin).
        eexists _, _, _. split; [reflexivity|]. cbn.
        rewrite app_nil_r. repeat split; try done; by exists items.
      * destruct (invoke_add_plugin_new py_str _ _ _ _ Hp Hin)
          as (l & Hl & ->).
        destruct (plugin_list_inv _ _ _ Hp) as (l' & Hl' & Hh & _).
        assert (l' = l) as -> by congruence.
        eexists _, _, _. split; [reflexivity|]. cbn.
        rewrite app_nil_r. repeat split; try done.
        -- eexists. by eapply plugin_list_after_store.
        -- by rewrite length_insert.
        -- intros l0 Hl0. apply list_lookup_insert_ne.
           intros ->. apply Hl0. by rewrite Hl.
Qed.

(** The same for a sequence of calls. *)
Lemma calls_facts cs : forall self w,
  wf self w ->
  exists rs self' w',
    invoke_all py_str cs (self, w) = Some (rs, (self', w')) /\
    self' = after_runs (count_runs cs) self /\
    wf self' w' /\
    stdout w' =
      stdout w ++ repeat (run_notice self) (Z.to_nat (count_runs cs)) /\
    length (heap w') = length (heap w) /\
    (forall l, plugins_loc self <> Some l -> heap w' !! l = heap w !! l).
Proof.
  induction cs as [|c cs IH]; intros self w Hwf.
  - exists [], self, w. cbn [count_runs]. rewrite after_runs_0. cbn.
    rewrite app_nil_r. by repeat split.
  - destruct (call_step self w c Hwf)
      as (r & s1 & w1 & E1 & Hs1 & Hwf1 & Ho1 & Hlen1 & Hfr1).
    destruct (IH s1 w1 Hwf1)
      as (rs & s2 & w2 & E2 & Hs2 & Hwf2 & Ho2 & Hlen2 & Hfr2).
    exists (r :: rs), s2, w2. rewrite (count_runs_cons c cs).
    split; [|repeat split].
    + cbn [invoke_all]. unfold bind at 1. rewrite E1.
      unfold bind at 1. by rewrite E2.
    + by rewrite Hs2, Hs1, after_runs_add.
    + done.
    + rewrite Ho2, Ho1, Hs1, run_notice_after_runs, <- app_assoc.
      rewrite <- repeat_app, <- Z2Nat.inj_add; [done|..];
        apply count_runs_nonneg.
    + congruence.
    + intros l Hl. rewrite Hfr2, Hfr1; [done..|].
      by rewrite Hs1, plugins_loc_after_runs.
Qed.

Lemma plugin_list_lookup p w l items :
  PluginTool.plugins p = VRef l ->
  heap w !! l = Some (OList items) ->
  plugin_list p w = Some items.
Proof.
  intros Hl Hh. unfold plugin_list. rewrite Hl. cbn.
  unfold deref, bind. by rewrite Hh.
Qed.

(** [run] on an instance with a counter. *)
Lemma run_entry self w n :
  wf self w ->
  execution_count_of self = Some n ->
  exists d self' w',
    invoke py_str Run (self, w) = Some (RDict d, (self', w')) /\
    wf self' w' /\
    execution_count_of self' = Some (n + 1)%Z /\
    dict_get "execution_count" d = Some (VInt (n + 1)) /\
    dict_get "timeout" d = dict_get "timeout" (attrs self') /\
    dict_get "tool_name" d = dict_get "name" (attrs self').
Proof.
  intros Hwf Hn. destruct self as [b|c|a|p]; try discriminate.
  - injection Hn as <-. rewrite invoke_run_advanced. cbn zeta.
    destruct a as [b f t n]. eexists _, _, _. split; [reflexivity|].
    by repeat split.
  - injection Hn as <-. destruct Hwf as [items Hp].
    rewrite (invoke_run_plugin py_str _ _ _ Hp). cbn zeta.
    destruct p as [[b f t n] v]. eexists _, _, _. split; [reflexivity|].
    repeat split; try done.
    exists items. rewrite <- Hp. by apply plugin_list_ext.
Qed.

(** [add_plugin] is idempotent: whatever the first call returns, which is
    [True] exactly when the name was not in [plugins], the name is in
    [plugins] after it, and a second call with the same name returns [False]
    and changes neither the instance nor the world. *)
Theorem add_plugin_twice p w items x :
  plugin_list p w = Some items ->
  exists b w1 items1,
    invoke py_str (AddPlugin x) (Plugin p, w) =
      Some (RBool b, (Plugin p, w1)) /\
    b = negb (list_in x items) /\
    plugin_list p w1 = Some items1 /\
    x ∈ items1 /\
    invoke py_str (AddPlugin x) (Plugin p, w1) =
      Some (RBool false, (Plugin p, w1)).
Proof.
  intros Hp. destruct (decide (x ∈ items)) as [Hin|Hin].
  - exists false, w, items.
    rewrite (invoke_add_plugin_dup py_str _ _ _ _ Hp Hin).
    repeat split; try done. apply list_in_spec in Hin. by rewrite Hin.
  - destruct (invoke_add_plugin_new py_str _ _ _ _ Hp Hin) as (l & Hl & E).
    destruct (plugin_list_inv _ _ _ Hp) as (l' & Hl' & Hh & _).
    assert (l' = l) as -> by congruence.
    pose proof (plugin_list_after_store p l w items (items ++ [x]) Hl Hh)
      as Hp1.
    assert (x ∈ items ++ [x]) as Hin1.
    { apply elem_of_app. right. by apply list_elem_of_singleton. }
    eexists true, _, _. split; [exact E|]. repeat split; try done.
    + apply list_in_false in Hin. by rewrite Hin.
    + by apply (invoke_add_plugin_dup py_str _ _ _ _ Hp1).
Qed.

(** Two PluginTools built without a [plugins] argument get two different
    lists: whatever is called on one of them, the list of the other stays
    empty. *)
Theorem default_plugins_are_not_shared
    n1 v1 e1 f1 t1 n2 v2 e2 f2 t2 w cs :
  exists p1 w1 p2 w2,
    PluginTool.__init__ n1 v1 e1 f1 t1 None w = Some (p1, w1) /\
    PluginTool.__init__ n2 v2 e2 f2 t2 None w1 = Some (p2, w2) /\
    PluginTool.plugins p1 <> PluginTool.plugins p2 /\
    (exists rs self' w',
       invoke_all py_str cs (Plugin p2, w2) = Some (rs, (self', w')) /\
       plugin_list p1 w' = Some []) /\
    (exists rs self' w',
       invoke_all py_str cs (Plugin p1, w2) = Some (rs, (self', w')) /\
       plugin_list p2 w' = Some []).
Proof.
  destruct (init_plugin_new n1 v1 e1 f1 t1 None w) as (p1 & E1 & Hl1 & Hp1);
    [done|].
  set (w1 := World (heap w ++ [OList []]) (stdout w)) in *.
  destruct (init_plugin_new n2 v2 e2 f2 t2 None w1) as (p2 & E2 & Hl2 & Hp2);
    [done|].
  set (w2 := World (heap w1 ++ [OList []]) (stdout w1)) in *.
  destruct (plugin_list_inv _ _ _ Hp1) as (l1 & Hl1' & Hh1 & _).
  destruct (plugin_list_inv _ _ _ Hp2) as (l2 & Hl2' & Hh2 & _).
  assert (l1 = length (heap w)) as -> by congruence.
  assert (l2 = length (heap w1)) as -> by congruence.
  assert (length (heap w) <> length (heap w1)) as Hne.
  { subst w1. cbn. rewrite length_app. cbn. lia. }
  assert (heap w2 !! length (heap w) = Some (OList [])) as Hh1'.
  { subst w2. cbn [heap]. rewrite lookup_app_l; [done|].
    by eapply lookup_lt_Some. }
  exists p1, w1, p2, w2. split; [done|]. split; [done|]. split; [congruence|].
  split.
  - destruct (calls_facts cs (Plugin p2) w2)
      as (rs & s' & w' & E & _ & _ & _ & _ & Hfr); [by eexists|].
    exists rs, s', w'. split; [done|].
    apply (plugin_list_lookup _ _ _ _ Hl1).
    rewrite Hfr; [done|]. rewrite (plugins_loc_plugin _ _ Hl2). congruence.
  - destruct (calls_facts cs (Plugin p1) w2)
      as (rs & s' & w' & E & _ & _ & _ & _ & Hfr).
    { exists []. by apply (plugin_list_lookup _ _ _ _ Hl1). }
    exists rs, s', w'. split; [done|].
    apply (plugin_list_lookup _ _ _ _ Hl2).
    rewrite Hfr; [done|]. rewrite (plugins_loc_plugin _ _ Hl1). congruence.
Qed.

(** A PluginTool built from a list that is not empty takes the list itself,
    not a copy: the world is the same after construction, a name that
    [add_plugin] accepts is appended to the list of the caller, and a second
    PluginTool built from the same list then has the name already. *)
Theorem given_plugins_are_shared
    n1 v1 e1 f1 t1 n2 v2 e2 f2 t2 w l y items x :
  heap w !! l = Some (OList (y :: items)) ->
  x ∉ y :: items ->
  exists p1 p2 w1,
    PluginTool.__init__ n1 v1 e1 f1 t1 (Some (VRef l)) w = Some (p1, w) /\
    PluginTool.__init__ n2 v2 e2 f2 t2 (Some (VRef l)) w = Some (p2, w) /\
    invoke py_str (AddPlugin x) (Plugin p1, w) =
      Some (RBool true, (Plugin p1, w1)) /\
    heap w1 !! l = Some (OList ((y :: items) ++ [x])) /\
    invoke py_str (AddPlugin x) (Plugin p2, w1) =
      Some (RBool false, (Plugin p2, w1)).
Proof.
  intros Hh Hx.
  assert (is_true w (VRef l) = Some true) as Ht.
  { unfold is_true. cbn. unfold deref, bind. by rewrite Hh. }
  destruct (init_plugin_shared n1 v1 e1 f1 t1 _ _ Ht) as (p1 & E1 & Hl1).
  destruct (init_plugin_shared n2 v2 e2 f2 t2 _ _ Ht) as (p2 & E2 & Hl2).
  pose proof (plugin_list_lookup _ _ _ _ Hl1 Hh) as Hp1.
  destruct (invoke_add_plugin_new py_str _ _ _ _ Hp1 Hx) as (l' & Hl' & E).
  assert (l' = l) as -> by congruence.
  pose proof (plugin_list_after_store p2 l w _ ((y :: items) ++ [x]) Hl2 Hh)
    as Hp2.
  eexists p1, p2, _. split; [done|]. split; [done|]. split; [exact E|].
  split.
  - cbn [heap]. apply list_lookup_insert_eq. by eapply lookup_lt_Some.
  - apply (invoke_add_plugin_dup py_str _ _ _ _ Hp2).
    apply elem_of_app. right. by apply list_elem_of_singleton.
Qed.

(** The mapping that [PluginTool.run] returns holds the list of the instance
    itself and a count taken at the time of the call: after a later
    [add_plugin] that is accepted, the [plugins] entry of that mapping shows
    the new name while its [plugin_count] entry is still the old length. *)
Theorem run_result_shares_the_list p w items x :
  plugin_list p w = Some items ->
  x ∉ items ->
  exists d p1 w1 w2 v,
    invoke py_str Run (Plugin p, w) = Some (RDict d, (Plugin p1, w1)) /\
    invoke py_str (AddPlugin x) (Plugin p1, w1) =
      Some (RBool true, (Plugin p1, w2)) /\
    dict_get "plugins" d = Some v /\
    fst <$> deref_list v w2 = Some (items ++ [x]) /\
    dict_get "plugin_count" d = Some (VInt (Z.of_nat (length items))).
Proof.
  intros Hp Hx. rewrite (invoke_run_plugin py_str _ _ _ Hp). cbn zeta.
  destruct (plugin_list_inv _ _ _ Hp) as (l & Hl & Hh & _).
  destruct p as [[b f t n] v]. cbn in Hl. subst v.
  set (p1 := PluginTool.Build (AdvancedTool.Build b f t (n + 1)) (VRef l)).
  set (w1 := World (heap w) (stdout w ++ _)).
  assert (plugin_list p1 w1 = Some items) as Hp1
    by by apply (plugin_list_lookup p1 w1 l).
  destruct (invoke_add_plugin_new py_str _ _ _ _ Hp1 Hx) as (l' & Hl' & E).
  cbn in Hl'. injection Hl' as <-.
  eexists _, p1, w1, _, _. split; [reflexivity|]. split; [exact E|].
  split; [reflexivity|]. split; [|reflexivity].
  cbn. unfold deref, bind. cbn.
  rewrite list_lookup_insert_eq; [done|]. by eapply lookup_lt_Some.
Qed.

(** Any sequence of calls on an instance prints one line for each call of
    [run] and nothing else; the line is the same every time, and on a
    PluginTool it is the notice of AdvancedTool. *)
Theorem calls_print_one_line_per_run self w cs :
  wf self w ->
  exists rs self' w',
    invoke_all py_str cs (self, w) = Some (rs, (self', w')) /\
    stdout w' =
      stdout w ++ repeat (run_notice self) (Z.to_nat (count_runs cs)) /\
    (forall p, self = Plugin p ->
       run_notice self = run_notice (Advanced (PluginTool.super_ p))).
Proof.
  intros Hwf.
  destruct (calls_facts cs self w Hwf) as (rs & s' & w' & E & _ & _ & Ho & _).
  exists rs, s', w'. split; [done|]. split; [done|]. by intros p ->.
Qed.



(** After [run] on an AdvancedTool or a PluginTool, [get_stats] reports what
    [run] returned: the same [execution_count], one more than before the
    call, the same [timeout], and as [name] the [tool_name]. *)
Theorem get_stats_agrees_with_run self w n :
  wf self w ->
  execution_count_of self = Some n ->
  exists d self' w' s,
    invoke py_str Run (self, w) = Some (RDict d, (self', w')) /\
    invoke py_str GetStats (self', w') = Some (RDict s, (self', w')) /\
    dict_get "execution_count" d = Some (VInt (n + 1)) /\
    dict_get "execution_count" s = dict_get "execution_count" d /\
    dict_get "timeout" s = dict_get "timeout" d /\
    dict_get "name" s = dict_get "tool_name" d.
Proof.
  intros Hwf Hn.
  destruct (run_entry self w n Hwf Hn)
    as (d & s' & w' & E & Hwf' & Hn' & Hc & Ht & Hname).
  destruct s' as [b|c|a|p]; try discriminate.
  - exists d, (Advanced a), w'. eexists. split; [done|].
    rewrite invoke_get_stats_advanced. split; [reflexivity|].
    injection Hn' as Hn'. destruct a as [b f t m]. cbn in *.
    rewrite Hc, Ht, Hname, Hn'. by repeat split.
  - exists d, (Plugin p), w'. eexists. split; [done|].
    rewrite invoke_get_stats_plugin. split; [reflexivity|].
    injection Hn' as Hn'. destruct p as [[b f t m] v]. cbn in *.
    rewrite Hc, Ht, Hname, Hn'. by repeat split.
Qed.

(** [N] calls of [run] in a row on an AdvancedTool or a PluginTool whose
    counter is [n] return mappings whose [execution_count] entries are
    [n + 1], [n + 2], ..., [n + N], in that order: no two calls return the
    same mapping. *)
Theorem runs_are_numbered N self w n :
  wf self w ->
  execution_count_of self = Some n ->
  exists rs self' w',
    invoke_all py_str (repeat Run N) (self, w) = Some (rs, (self', w')) /\
    map (result_entry "execution_count") rs =
      map (fun i => Some (VInt (n + Z.of_nat i))) (seq 1 N).
Proof.
  revert self w n. induction N as [|N IH]; intros self w n Hwf Hn.
  - by exists [], self, w.
  - destruct (run_entry self w n Hwf Hn)
      as (d & s1 & w1 & E1 & Hwf1 & Hn1 & Hc & _).
    destruct (IH s1 w1 _ Hwf1 Hn1) as (rs & s2 & w2 & E2 & Hrs).
    exists (RDict d :: rs), s2, w2. split.
    + cbn [repeat invoke_all]. unfold bind at 1. rewrite E1.
      unfold bind at 1. by rewrite E2.
    + cbn [map seq result_entry]. rewrite Hc, Hrs. f_equal.
      rewrite <- (seq_shift N 1), map_map. apply map_ext. intros i.
      by replace (n + 1 + Z.of_nat i)%Z with (n + Z.of_nat (S i))%Z by lia.
Qed.

Lemma or_new_cases v o w :
  valid w v ->
  exists v' w',
    or_new v o w = Some (v', w') /\
    stdout w' = stdout w /\
    ((is_true w v = Some true /\ v' = v /\ w' = w) \/
     (is_true w v = Some false /\ v' = VRef (length (heap w)) /\
      heap w' = heap w ++ [o])).
Proof.
  intros Hv. destruct (truthy_valid v w Hv) as [[] Hb].
  - assert (is_true w v = Some true) as Ht by (unfold is_true; by rewrite Hb).
    exists v, w. rewrite (or_new_true _ _ _ Ht). split; [done|].
    split; [done|]. by left.
  - assert (is_true w v = Some false) as Hf by (unfold is_true; by rewrite Hb).
    eexists _, _. rewrite (or_new_false _ _ _ Hf). split; [reflexivity|].
    split; [done|]. by right.
Qed.

(** [get_info] on a newly built instance of any of the four classes returns
    the [name] given to the constructor, the [version] given or else the
    default of the class, and the [enabled] given or else [True]. *)
Theorem get_info_returns_constructor_arguments
    name version enabled custom_config log_file timeout plugins w :
  valid w (default VNone custom_config) ->
  valid w (default VNone plugins) ->
  (exists b w',
     BaseTool.__init__ name version enabled w = Some (b, w') /\
     invoke py_str GetInfo (Base b, w') =
       Some (RDict [("name", VStr name);
                    ("version", VStr (default "1.0" version));
                    ("enabled", VBool (default true enabled))],
             (Base b, w'))) /\
  (exists c w',
     CustomTool.__init__ name version enabled custom_config w =
       Some (c, w') /\
     invoke py_str GetInfo (Custom c, w') =
       Some (RDict [("name", VStr name);
                    ("version", VStr (default "1.0" version));
                    ("enabled", VBool (default true enabled))],
             (Custom c, w'))) /\
  (exists a w',
     AdvancedTool.__init__ name version enabled log_file timeout w =
       Some (a, w') /\
     invoke py_str GetInfo (Advanced a, w') =
       Some (RDict [("name", VStr name);
                    ("version", VStr (default "2.0" version));
                    ("enabled", VBool (default true enabled))],
             (Advanced a, w'))) /\
  (exists p w',
     PluginTool.__init__ name version enabled log_file timeout plugins w =
       Some (p, w') /\
     invoke py_str GetInfo (Plugin p, w') =
       Some (RDict [("name", VStr name);
                    ("version", VStr (default "3.0" version));
                    ("enabled", VBool (default true enabled))],
             (Plugin p, w'))).
Proof.
  intros Hc Hp. repeat split.
  - eexists _, _. split; [reflexivity|]. by rewrite invoke_get_info.
  - rewrite init_custom.
    destruct (or_new_valid _ (ODict []) _ Hc) as (v & w' & ->).
    eexists _, _. split; [reflexivity|]. by rewrite invoke_get_info.
  - eexists _, _. split; [reflexivity|]. by rewrite invoke_get_info.
  - rewrite init_plugin.
    destruct (or_new_valid _ (OList []) _ Hp) as (v & w' & ->).
    eexists _, _. split; [reflexivity|]. by rewrite invoke_get_info.
Qed.


(** The constructors print nothing and change no object.  Those of BaseTool
    and AdvancedTool leave the world as it is.  Those of CustomTool and
    PluginTool keep a container argument that is true as it is, without a
    copy and without a change of the world, and otherwise add one new, empty
    container to the heap. *)
Theorem constructors_only_allocate
    name version enabled custom_config log_file timeout plugins w :
  valid w (default VNone custom_config) ->
  valid w (default VNone plugins) ->
  (exists b, BaseTool.__init__ name version enabled w = Some (b, w)) /\
  (exists a,
     AdvancedTool.__init__ name version enabled log_file timeout w =
       Some (a, w)) /\
  (exists c w',
     CustomTool.__init__ name version enabled custom_config w =
       Some (c, w') /\
     stdout w' = stdout w /\
     ((is_true w (default VNone custom_config) = Some true /\
       CustomTool.custom_config c = default VNone custom_config /\ w' = w) \/
      (is_true w (default VNone custom_config) = Some false /\
       CustomTool.custom_config c = VRef (length (heap w)) /\
       heap w' = heap w ++ [ODict []]))) /\
  (exists p w',
     PluginTool.__init__ name version enabled log_file timeout plugins w =
       Some (p, w') /\
     stdout w' = stdout w /\
     ((is_true w (default VNone plugins) = Some true /\
       PluginTool.plugins p = default VNone plugins /\ w' = w) \/
      (is_true w (default VNone plugins) = Some false /\
       PluginTool.plugins p = VRef (length (heap w)) /\
       heap w' = heap w ++ [OList []]))).
Proof.
  intros Hc Hp. split; [by eexists|]. split; [by eexists|]. split.
  - rewrite init_custom.
    destruct (or_new_cases _ (ODict []) _ Hc) as (v & w' & -> & Ho & Hcases).
    eexists _, _. split; [reflexivity|]. split; [done|]. exact Hcases.
  - rewrite init_plugin.
    destruct (or_new_cases _ (OList []) _ Hp) as (v & w' & -> & Ho & Hcases).
    eexists _, _. split; [reflexivity|]. split; [done|]. exact Hcases.
Qed.

Lemma accepted_step p w items c r p' w' :
  plugin_list p w = Some items ->
  invoke py_str c (Plugin p, w) = Some (r, (Plugin p', w')) ->
  accepted [c] [r] = [] \/ exists x, accepted [c] [r] = [x] /\ x ∉ items.
Proof.
  intros Hp E. destruct c as [| | |x]; try by left.
  destruct (decide (x ∈ items)) as [Hin|Hin].
  - rewrite (invoke_add_plugin_dup py_str _ _ _ _ Hp Hin) in E.
    injection E as <- _ _. by left.
  - destruct (invoke_add_plugin_new py_str _ _ _ _ Hp Hin) as (l & _ & E').
    rewrite E' in E. injection E as <- _ _. right. by exists x.
Qed.

(** On a PluginTool whose [plugins] is a list, with or without duplicates,
    any sequence of calls only appends to the list: the list afterwards is
    the list before followed by the names that [add_plugin] accepted, which
    are distinct from each other and from the names before; and a [run]
    after the sequence reports as [plugin_count] the old length plus the
    number of accepted names. *)
Theorem calls_only_append_plugins cs p w items :
  plugin_list p w = Some items ->
  exists rs p' w' d self'' w'',
    invoke_all py_str cs (Plugin p, w) = Some (rs, (Plugin p', w')) /\
    plugin_list p' w' = Some (items ++ accepted cs rs) /\
    NoDup (accepted cs rs) /\
    Forall (fun x => x ∉ items) (accepted cs rs) /\
    invoke py_str Run (Plugin p', w') = Some (RDict d, (self'', w'')) /\
    dict_get "plugin_count" d =
      Some (VInt (Z.of_nat (length items + length (accepted cs rs)))).
Proof.
  intros Hp.
  assert (Htrace : forall cs p w items,
    plugin_list p w = Some items ->
    exists rs p' w',
      invoke_all py_str cs (Plugin p, w) = Some (rs, (Plugin p', w')) /\
      plugin_list p' w' = Some (items ++ accepted cs rs) /\
      NoDup (accepted cs rs) /\
      Forall (fun x => x ∉ items) (accepted cs rs)).
  { clear. induction cs as [|c cs IH]; intros p w items Hp.
    - exists [], p, w. cbn [accepted]. rewrite app_nil_r.
      repeat split; try done. apply NoDup_nil_2.
    - destruct (plugin_step py_str p w items c Hp)
        as (r & p1 & w1 & E1 & _ & Hp1 & _).
      pose proof (accepted_step p w items c r p1 w1 Hp E1) as Hacc.
      destruct (IH p1 w1 _ Hp1) as (rs & p2 & w2 & E2 & Hp2 & Hnd & Hfresh).
      exists (r :: rs), p2, w2. rewrite (accepted_cons c r cs rs).
      split; [|split; [by rewrite app_assoc|]].
      { cbn [invoke_all]. unfold bind at 1. rewrite E1.
        unfold bind at 1. by rewrite E2. }
      rewrite Forall_forall in Hfresh.
      destruct Hacc as [Ha|(x & Ha & Hx)]; rewrite Ha in *.
      + split; [done|]. apply Forall_forall. intros y Hy Hin.
        apply (Hfresh y Hy). apply elem_of_app. by left.
      + split.
        * apply NoDup_cons. split; [|done]. intros Hin.
          apply (Hfresh x Hin). apply elem_of_app. right.
          by apply list_elem_of_singleton.
        * apply Forall_cons. split; [done|].
          apply Forall_forall. intros y Hy Hin.
          apply (Hfresh y Hy). apply elem_of_app. by left. }
  destruct (Htrace cs p w items Hp) as (rs & p' & w' & E & Hp' & Hnd & Hfresh).
  pose proof (invoke_run_plugin py_str _ _ _ Hp') as Er. cbn zeta in Er.
  eexists rs, p', w', _, _, _. split; [exact E|]. split; [exact Hp'|].
  split; [exact Hnd|]. split; [exact Hfresh|]. split; [exact Er|].
  cbn. by rewrite length_app.
Qed.

End Further.

(** ** Properties of the asset namer *)

Lemma length_append (s1 s2 : string) :
  String.length (s1 +:+ s2) = String.length s1 + String.length s2.
Proof.
  induction s1 as [|a s1 IH]; [done|].
  change (S (String.length (s1 +:+ s2)) =
          S (String.length s1 + String.length s2)).
  by rewrite IH.
Qed.

Lemma append_cancel_r (s1 s2 t : string) : s1 +:+ t = s2 +:+ t -> s1 = s2.
Proof.
  revert s2. induction s1 as [|a s1 IH]; intros [|b s2] H.
  - done.
  - apply (f_equal String.length) in H.
    change (String.length t = S (String.length (s2 +:+ t))) in H.
    rewrite length_append in H. lia.
  - apply (f_equal String.length) in H.
    change (S (String.length (s1 +:+ t)) = String.length t) in H.
    rewrite length_append in H. lia.
  - change (String a (s1 +:+ t) = String b (s2 +:+ t)) in H.
    injection H as -> H. f_equal. by apply IH.
Qed.

Lemma substring_all (s : string) : substring 0 (String.length s) s = s.
Proof.
  induction s as [|a s IH]; [done|].
  change (String a (substring 0 (String.length s) s) = String a s).
  by rewrite IH.
Qed.

Lemma substring_prefix (s t : string) :
  substring 0 (String.length s) (s +:+ t) = s.
Proof.
  induction s as [|a s IH]; [by destruct t|].
  change (String a (substring 0 (String.length s) (s +:+ t)) = String a s).
  by rewrite IH.
Qed.

Lemma substring_skip (s t : string) n :
  substring (String.length s) n (s +:+ t) = substring 0 n t.
Proof. induction s as [|a s IH]; [done|]. exact IH. Qed.

Lemma split_at_first (c : ascii) (p1 p2 b1 b2 : string) :
  has_char c p1 = false ->
  has_char c p2 = false ->
  p1 +:+ String c b1 = p2 +:+ String c b2 ->
  p1 = p2 /\ b1 = b2.
Proof.
  revert p2. induction p1 as [|a p1 IH]; intros [|a' p2] H1 H2 H.
  - by injection H as ->.
  - change (String c b1 = String a' (p2 +:+ String c b2)) in H.
    injection H as <- _. cbn in H2. by rewrite Ascii.eqb_refl in H2.
  - change (String a (p1 +:+ String c b1) = String c b2) in H.
    injection H as -> _. cbn in H1. by rewrite Ascii.eqb_refl in H1.
  - change (String a (p1 +:+ String c b1) = String a' (p2 +:+ String c b2))
      in H.
    injection H as -> H. cbn in H1, H2.
    destruct (Ascii.eqb c a'); [discriminate|].
    destruct (IH p2 H1 H2 H) as [-> ->]. done.
Qed.

Lemma generate_name_eq namer base_name w :
  AssetNamer.generate_name base_name (namer, w) =
    Some (AssetNamer.prefix namer +:+ "_" +:+ base_name, (namer, w)).
Proof. reflexivity. Qed.

(** When two calls of [generate_name] return the same name, the prefixes of
    the two namers are equal exactly when the two base names are: one namer
    never gives the same name to two base names, and two namers with
    different prefixes never give the same name to one base name. *)
Theorem generate_name_injective n1 n2 b1 b2 w1 w2 :
  fst <$> AssetNamer.generate_name b1 (n1, w1) =
    fst <$> AssetNamer.generate_name b2 (n2, w2) ->
  AssetNamer.prefix n1 = AssetNamer.prefix n2 <-> b1 = b2.
Proof.
  rewrite !generate_name_eq. cbn. intros [= H]. split.
  - intros Hp. rewrite Hp in H. apply String.app_inj in H.
    by apply String.app_inj in H.
  - intros ->.
    by apply (append_cancel_r _ _ ("_" +:+ b2)).
Qed.

(** When neither prefix contains an underscore, the name tells both the
    prefix and the base name: two calls that return the same name had the
    same prefix and the same base name. *)
Theorem generate_name_unique_without_underscore n1 n2 b1 b2 w1 w2 :
  has_char "_" (AssetNamer.prefix n1) = false ->
  has_char "_" (AssetNamer.prefix n2) = false ->
  fst <$> AssetNamer.generate_name b1 (n1, w1) =
    fst <$> AssetNamer.generate_name b2 (n2, w2) ->
  AssetNamer.prefix n1 = AssetNamer.prefix n2 /\ b1 = b2.
Proof.
  intros H1 H2. rewrite !generate_name_eq. cbn. intros [= H].
  by apply (split_at_first "_" _ _ _ _ H1 H2).
Qed.

(** With an underscore in a prefix the name is ambiguous: the namer with
    prefix [p_s] gives to [b] the name that the namer with prefix [p] gives
    to [s_b]. *)
Theorem generate_name_ambiguous p s b w :
  fst <$> AssetNamer.generate_name b
            (AssetNamer.Build (p +:+ "_" +:+ s), w) =
    fst <$> AssetNamer.generate_name (s +:+ "_" +:+ b)
              (AssetNamer.Build p, w).
Proof. rewrite !generate_name_eq. cbn. by rewrite !append_assoc. Qed.

(** [generate_name] changes neither the namer nor the world; the name it
    returns is one character longer than prefix and base name together,
    begins with the prefix, and gives the base name back when the prefix and
    the underscore are cut off. *)
Theorem generate_name_decodes namer base_name w :
  exists s,
    AssetNamer.generate_name base_name (namer, w) = Some (s, (namer, w)) /\
    String.length s =
      String.length (AssetNamer.prefix namer) + 1 + String.length base_name /\
    substring 0 (String.length (AssetNamer.prefix namer)) s =
      AssetNamer.prefix namer /\
    substring (String.length (AssetNamer.prefix namer) + 1)
      (String.length base_name) s = base_name.
Proof.
  eexists. split; [apply generate_name_eq|]. split; [|split].
  - rewrite !length_append. cbn. lia.
  - apply substring_prefix.
  - rewrite <- (append_assoc _ "_" base_name).
    replace (String.length (AssetNamer.prefix namer) + 1)
      with (String.length (AssetNamer.prefix namer +:+ "_"))
      by (rewrite length_append; reflexivity).
    rewrite substring_skip. apply substring_all.
Qed.

(** ** The further statements at concrete instances *)

Example asset_name :
  AssetNamer.generate_name "rock" (AssetNamer.Build "tex", empty_world) =
    Some ("tex_rock", (AssetNamer.Build "tex", empty_world)).
Proof. reflexivity. Qed.

Lemma add_plugin_twice_witness :
  plugin_list svc auth_world = Some ["auth"] /\
  exists b w1 items1,
    invoke str_of (AddPlugin "cache") (Plugin svc, auth_world) =
      Some (RBool b, (Plugin svc, w1)) /\
    b = negb (list_in "cache" ["auth"]) /\
    plugin_list svc w1 = Some items1 /\
    ("cache" ∈ items1) /\
    invoke str_of (AddPlugin "cache") (Plugin svc, w1) =
      Some (RBool false, (Plugin svc, w1)).
Proof.
  assert (plugin_list svc auth_world = Some ["auth"]) as Hp by reflexivity.
  split; [exact Hp|].
  exact (add_plugin_twice str_of svc auth_world ["auth"] "cache" Hp).
Defined.

Lemma given_plugins_are_shared_witness :
  heap auth_world !! 0 = Some (OList ["auth"]) /\
  ("cache" ∉ ["auth"]) /\
  exists p1 p2 w1,
    PluginTool.__init__ "one" None None None None (Some (VRef 0)) auth_world =
      Some (p1, auth_world) /\
    PluginTool.__init__ "two" None None None None (Some (VRef 0)) auth_world =
      Some (p2, auth_world) /\
    invoke str_of (AddPlugin "cache") (Plugin p1, auth_world) =
      Some (RBool true, (Plugin p1, w1)) /\
    heap w1 !! 0 = Some (OList (["auth"] ++ ["cache"])) /\
    invoke str_of (AddPlugin "cache") (Plugin p2, w1) =
      Some (RBool false, (Plugin p2, w1)).
Proof.
  assert (heap auth_world !! 0 = Some (OList ["auth"])) as Hh by reflexivity.
  assert ("cache" ∉ ["auth"]) as Hx.
  { intros Hin%list_elem_of_singleton. discriminate. }
  split; [exact Hh|]. split; [exact Hx|].
  exact (given_plugins_are_shared str_of "one" None None None None
           "two" None None None None auth_world 0 "auth" [] "cache" Hh Hx).
Defined.

Lemma run_result_shares_the_list_witness :
  plugin_list svc auth_world = Some ["auth"] /\
  ("cache" ∉ ["auth"]) /\
  exists d p1 w1 w2 v,
    invoke str_of Run (Plugin svc, auth_world) =
      Some (RDict d, (Plugin p1, w1)) /\
    invoke str_of (AddPlugin "cache") (Plugin p1, w1) =
      Some (RBool true, (Plugin p1, w2)) /\
    dict_get "plugins" d = Some v /\
    fst <$> deref_list v w2 = Some (["auth"] ++ ["cache"]) /\
    dict_get "plugin_count" d = Some (VInt (Z.of_nat (length ["auth"]))).
Proof.
  assert (plugin_list svc auth_world = Some ["auth"]) as Hp by reflexivity.
  assert ("cache" ∉ ["auth"]) as Hx.
  { intros Hin%list_elem_of_singleton. discriminate. }
  split; [exact Hp|]. split; [exact Hx|].
  exact (run_result_shares_the_list str_of svc auth_world ["auth"] "cache"
           Hp Hx).
Defined.

Lemma calls_print_one_line_per_run_witness :
  wf (Plugin svc) auth_world /\
  exists rs self' w',
    invoke_all str_of [Run; AddPlugin "cache"; Run] (Plugin svc, auth_world) =
      Some (rs, (self', w')) /\
    stdout w' =
      stdout auth_world ++
      repeat (run_notice (Plugin svc))
        (Z.to_nat (count_runs [Run; AddPlugin "cache"; Run])) /\
    (forall p, Plugin svc = Plugin p ->
       run_notice (Plugin svc) = run_notice (Advanced (PluginTool.super_ p))).
Proof.
  assert (wf (Plugin svc) auth_world) as Hwf by (eexists; reflexivity).
  split; [exact Hwf|].
  exact (calls_print_one_line_per_run str_of (Plugin svc) auth_world
           [Run; AddPlugin "cache"; Run] Hwf).
Defined.



Lemma get_stats_agrees_with_run_witness :
  wf (Plugin svc) auth_world /\
  execution_count_of (Plugin svc) = Some 4%Z /\
  exists d self' w' s,
    invoke str_of Run (Plugin svc, auth_world) =
      Some (RDict d, (self', w')) /\
    invoke str_of GetStats (self', w') = Some (RDict s, (self', w')) /\
    dict_get "execution_count" d = Some (VInt (4 + 1)) /\
    dict_get "execution_count" s = dict_get "execution_count" d /\
    dict_get "timeout" s = dict_get "timeout" d /\
    dict_get "name" s = dict_get "tool_name" d.
Proof.
  assert (wf (Plugin svc) auth_world) as Hwf by (eexists; reflexivity).
  assert (execution_count_of (Plugin svc) = Some 4%Z) as Hn by reflexivity.
  split; [exact Hwf|]. split; [exact Hn|].
  exact (get_stats_agrees_with_run str_of (Plugin svc) auth_world 4%Z Hwf Hn).
Defined.

Lemma runs_are_numbered_witness :
  wf (Advanced job) empty_world /\
  execution_count_of (Advanced job) = Some 0%Z /\
  exists rs self' w',
    invoke_all str_of (repeat Run 3) (Advanced job, empty_world) =
      Some (rs, (self', w')) /\
    map (result_entry "execution_count") rs =
      map (fun i => Some (VInt (0 + Z.of_nat i))) (seq 1 3).
Proof.
  assert (wf (Advanced job) empty_world) as Hwf by exact I.
  assert (execution_count_of (Advanced job) = Some 0%Z) as Hn by reflexivity.
  split; [exact Hwf|]. split; [exact Hn|].
  exact (runs_are_numbered str_of 3 (Advanced job) empty_world 0%Z Hwf Hn).
Defined.

Lemma get_info_returns_constructor_arguments_witness :
  valid mode_world (default VNone (Some (VRef 0))) /\
  valid mode_world (default VNone None) /\
  exists c w',
    CustomTool.__init__ "fmt" (Some "1.4") None (Some (VRef 0)) mode_world =
      Some (c, w') /\
    invoke str_of GetInfo (Custom c, w') =
      Some (RDict [("name", VStr "fmt");
                   ("version", VStr (default "1.0" (Some "1.4")));
                   ("enabled", VBool (default true None))],
            (Custom c, w')).
Proof.
  assert (valid mode_world (default VNone (Some (VRef 0)))) as Hc
    by (eexists; reflexivity).
  assert (valid mode_world (default VNone None)) as Hp by exact I.
  split; [exact Hc|]. split; [exact Hp|].
  exact (proj1 (proj2 (get_info_returns_constructor_arguments str_of
                         "fmt" (Some "1.4") None (Some (VRef 0)) None None
                         None mode_world Hc Hp))).
Defined.


Lemma constructors_only_allocate_witness :
  valid mode_world (default VNone (Some (VRef 0))) /\
  valid mode_world (default VNone None) /\
  exists b, BaseTool.__init__ "fmt" None None mode_world = Some (b, mode_world).
Proof.
  assert (valid mode_world (default VNone (Some (VRef 0)))) as Hc
    by (eexists; reflexivity).
  assert (valid mode_world (default VNone None)) as Hp by exact I.
  split; [exact Hc|]. split; [exact Hp|].
  exact (proj1 (constructors_only_allocate "fmt" None None (Some (VRef 0))
                  None None None mode_world Hc Hp)).
Defined.

Lemma generate_name_injective_witness :
  fst <$> AssetNamer.generate_name "c" (AssetNamer.Build "a_b", empty_world)
    = fst <$> AssetNamer.generate_name "b_c"
                (AssetNamer.Build "a", auth_world) /\
  (AssetNamer.prefix (AssetNamer.Build "a_b") =
     AssetNamer.prefix (AssetNamer.Build "a") <-> "c" = "b_c").
Proof.
  assert (fst <$> AssetNamer.generate_name "c"
                    (AssetNamer.Build "a_b", empty_world) =
          fst <$> AssetNamer.generate_name "b_c"
                    (AssetNamer.Build "a", auth_world)) as H by reflexivity.
  split; [exact H|].
  exact (generate_name_injective (AssetNamer.Build "a_b")
           (AssetNamer.Build "a") "c" "b_c" empty_world auth_world H).
Defined.

Lemma generate_name_unique_without_underscore_witness :
  has_char "_" (AssetNamer.prefix (AssetNamer.Build "tex")) = false /\
  fst <$> AssetNamer.generate_name "rock" (AssetNamer.Build "tex", empty_world)
    = fst <$> AssetNamer.generate_name "rock"
                (AssetNamer.Build "tex", auth_world) /\
  AssetNamer.prefix (AssetNamer.Build "tex") =
    AssetNamer.prefix (AssetNamer.Build "tex") /\
  "rock" = "rock".
Proof.
  assert (has_char "_" (AssetNamer.prefix (AssetNamer.Build "tex")) = false)
    as Hu by reflexivity.
  assert (fst <$> AssetNamer.generate_name "rock"
                    (AssetNamer.Build "tex", empty_world) =
          fst <$> AssetNamer.generate_name "rock"
                    (AssetNamer.Build "tex", auth_world)) as H by reflexivity.
  split; [exact Hu|]. split; [exact H|].
  exact (generate_name_unique_without_underscore (AssetNamer.Build "tex")
           (AssetNamer.Build "tex") "rock" "rock" empty_world auth_world
           Hu Hu H).
Defined.

Lemma calls_only_append_plugins_witness :
  plugin_list svc auth_world = Some ["auth"] /\
  exists rs p' w' d self'' w'',
    invoke_all str_of [AddPlugin "cache"; AddPlugin "auth"; AddPlugin "cache"]
      (Plugin svc, auth_world) = Some (rs, (Plugin p', w')) /\
    plugin_list p' w' =
      Some (["auth"] ++
            accepted [AddPlugin "cache"; AddPlugin "auth"; AddPlugin "cache"]
              rs) /\
    NoDup (accepted [AddPlugin "cache"; AddPlugin "auth"; AddPlugin "cache"]
             rs) /\
    Forall (fun x => x ∉ ["auth"])
      (accepted [AddPlugin "cache"; AddPlugin "auth"; AddPlugin "cache"] rs) /\
    invoke str_of Run (Plugin p', w') = Some (RDict d, (self'', w'')) /\
    dict_get "plugin_count" d =
      Some (VInt (Z.of_nat
                    (length ["auth"] +
                     length (accepted [AddPlugin "cache"; AddPlugin "auth";
                                       AddPlugin "cache"] rs)))).
Proof.
  assert (plugin_list svc auth_world = Some ["auth"]) as Hp by reflexivity.
  split; [exact Hp|].
  exact (calls_only_append_plugins str_of
           [AddPlugin "cache"; AddPlugin "auth"; AddPlugin "cache"]
           svc auth_world ["auth"] Hp).
Defined.
